(** * SIWE-ui: the session controller and the profile form, verified

    A shallow embedding of the client-side logic of the SIWE user interface:

    - [AuthProvider] of [contexts/AuthContext.tsx], in the revision that
      carries [userData] and the profile operations (the one [WalletAuth]
      reads [userData] from; the earlier revision, written against a local
      server, has neither [userData] nor the profile operations): the
      wallet-change effect, [getNonce], [authenticate], [logout],
      [checkAuthStatus], [fetchUserData], [createOrUpdateProfile],
      [deleteProfile];
    - [handleFormSubmit] of [components/WalletAuth.tsx], with the trimming
      and the two regular expressions it validates the form with.

    JavaScript values, thrown values and strings are modelled as data; the
    React setters, [fetch], [console.error], [alert] and the wallet are
    effects of a small state-and-exception monad that records every call in
    a chronological trace.  The server, the wallet and the SIWE library are
    oracles the theorems quantify over. *)

From Stdlib Require Import List String Ascii NArith ZArith Bool Lia.
From Stdlib Require Import SpecFloat.
Import ListNotations.
Local Open Scope N_scope.
Local Open Scope list_scope.
Set Warnings "-register-all".

(** ** JavaScript strings *)

Module JS.

(** A JavaScript string is a sequence of UTF-16 code units. *)
Definition jsstring := list N.

(** A source literal (ASCII in every literal of the program). *)
Definition lit (s : string) : jsstring :=
  map N_of_ascii (list_ascii_of_string s).

Definition code (a : ascii) : N := N_of_ascii a.

Fixpoint jsstring_eqb (a b : jsstring) : bool :=
  match a, b with
  | [], [] => true
  | x :: a', y :: b' => (x =? y) && jsstring_eqb a' b'
  | _, _ => false
  end.

(** ECMAScript [WhiteSpace] and [LineTerminator] code points: what
    [String.prototype.trim] strips and what [\s] matches. *)
Definition isLineTerminator (c : N) : bool :=
  (c =? 0x0A) || (c =? 0x0D) || (c =? 0x2028) || (c =? 0x2029).

Definition isWhiteSpace (c : N) : bool :=
  (c =? 0x09) || (c =? 0x0B) || (c =? 0x0C) || (c =? 0x20) || (c =? 0xA0)
  || (c =? 0x1680) || ((0x2000 <=? c) && (c <=? 0x200A))
  || (c =? 0x202F) || (c =? 0x205F) || (c =? 0x3000) || (c =? 0xFEFF).

Definition isSpace (c : N) : bool := isWhiteSpace c || isLineTerminator c.

Fixpoint trimStart (s : jsstring) : jsstring :=
  match s with
  | c :: s' => if isSpace c then trimStart s' else s
  | [] => []
  end.

Definition trimEnd (s : jsstring) : jsstring := rev (trimStart (rev s)).

Definition trim (s : jsstring) : jsstring := trimEnd (trimStart s).

(** Truthiness of a string: [""] is the only falsy one. *)
Definition nonEmpty (s : jsstring) : bool :=
  match s with [] => false | _ :: _ => true end.

(** ** Regular expressions

    The two patterns of the form are anchored at both ends and have no
    captures that are read, no back-references and no look-around, so
    [RegExp.prototype.test] decides membership in the pattern's language.
    Membership is computed with Brzozowski derivatives over character
    classes. *)

Inductive regex : Type :=
| Void : regex
| Eps : regex
| Class (p : N -> bool) : regex
| Cat (r1 r2 : regex) : regex
| Alt (r1 r2 : regex) : regex
| Star (r : regex) : regex.

Definition Plus (r : regex) : regex := Cat r (Star r).
Definition Opt (r : regex) : regex := Alt r Eps.

Fixpoint nullable (r : regex) : bool :=
  match r with
  | Void => false
  | Eps => true
  | Class _ => false
  | Cat r1 r2 => nullable r1 && nullable r2
  | Alt r1 r2 => nullable r1 || nullable r2
  | Star _ => true
  end.

Fixpoint deriv (c : N) (r : regex) : regex :=
  match r with
  | Void => Void
  | Eps => Void
  | Class p => if p c then Eps else Void
  | Cat r1 r2 =>
      if nullable r1
      then Alt (Cat (deriv c r1) r2) (deriv c r2)
      else Cat (deriv c r1) r2
  | Alt r1 r2 => Alt (deriv c r1) (deriv c r2)
  | Star r1 => Cat (deriv c r1) (Star r1)
  end.

Fixpoint test (r : regex) (s : jsstring) : bool :=
  match s with
  | [] => nullable r
  | c :: s' => test (deriv c r) s'
  end.

(** The language of a pattern, as a relation, to check [test] against. *)
Inductive matches : regex -> jsstring -> Prop :=
| MEps : matches Eps []
| MClass p c : p c = true -> matches (Class p) [c]
| MCat r1 r2 s1 s2 :
    matches r1 s1 -> matches r2 s2 -> matches (Cat r1 r2) (s1 ++ s2)
| MAltL r1 r2 s : matches r1 s -> matches (Alt r1 r2) s
| MAltR r1 r2 s : matches r2 s -> matches (Alt r1 r2) s
| MStarNil r : matches (Star r) []
| MStarCons r s1 s2 :
    matches r s1 -> matches (Star r) s2 -> matches (Star r) (s1 ++ s2).

(** A literal character; with the [i] flag an ASCII letter matches both of
    its cases and nothing else (without the [u] flag a code unit of 128 or
    more never canonicalizes to an ASCII one). *)
Definition chr (a : ascii) : regex := Class (fun c => c =? code a).

Definition isAsciiUpper (c : N) : bool := (0x41 <=? c) && (c <=? 0x5A).
Definition isAsciiLower (c : N) : bool := (0x61 <=? c) && (c <=? 0x7A).
Definition asciiUpper (c : N) : N := if isAsciiLower c then c - 0x20 else c.

Definition chr_i (a : ascii) : regex :=
  Class (fun c => if c <? 128 then asciiUpper c =? asciiUpper (code a)
                  else false).

Fixpoint word_i (s : list ascii) : regex :=
  match s with
  | [] => Eps
  | a :: s' => Cat (chr_i a) (word_i s')
  end.

Definition str_i (s : string) : regex := word_i (list_ascii_of_string s).

(** [[^\s@]] *)
Definition notSpaceNorAt : regex :=
  Class (fun c => negb (isSpace c || (c =? code "@"))).

(** [.] without the [s] flag: anything but a line terminator. *)
Definition dot : regex := Class (fun c => negb (isLineTerminator c)).

(** [/^[^\s@]+@[^\s@]+\.[^\s@]+$/] *)
Definition emailPattern : regex :=
  Cat (Plus notSpaceNorAt)
    (Cat (chr "@")
       (Cat (Plus notSpaceNorAt)
          (Cat (chr ".") (Plus notSpaceNorAt)))).

(** [/^https?:\/\/.+\.(jpg|jpeg|png|gif|webp|svg)$/i] *)
Definition avatarPattern : regex :=
  Cat (str_i "http")
    (Cat (Opt (chr_i "s"))
       (Cat (str_i "://")
          (Cat (Plus dot)
             (Cat (chr_i ".")
                (Alt (str_i "jpg")
                   (Alt (str_i "jpeg")
                      (Alt (str_i "png")
                         (Alt (str_i "gif")
                            (Alt (str_i "webp") (str_i "svg")))))))))).

End JS.

Import JS.

(** ** JavaScript values *)

(** What [response.json()] can produce, plus [undefined] (the value of a
    missing property).  Numbers are IEEE doubles. *)
Inductive JsVal : Type :=
| JUndefined : JsVal
| JNull : JsVal
| JBool (b : bool) : JsVal
| JNum (f : spec_float) : JsVal
| JStr (s : jsstring) : JsVal
| JArr (items : list JsVal) : JsVal
| JObj (fields : list (jsstring * JsVal)) : JsVal.

(** A thrown value: an [Error] instance with its [message], or anything
    else.  [err instanceof Error] tells the two apart. *)
Inductive Thrown : Type :=
| ThrowError (message : jsstring) : Thrown
| ThrowOther (v : JsVal) : Thrown.

Definition Err (s : string) : Thrown := ThrowError (lit s).

(** [err instanceof Error ? err.message : fallback] *)
Definition messageOr (err : Thrown) (fallback : string) : jsstring :=
  match err with
  | ThrowError m => m
  | ThrowOther _ => lit fallback
  end.

(** How an evaluation or an awaited promise ends. *)
Inductive Completion (A : Type) : Type :=
| Normal (a : A) : Completion A
| Abrupt (e : Thrown) : Completion A.
Arguments Normal {A} a.
Arguments Abrupt {A} e.

(** ToBoolean *)
Definition truthy (v : JsVal) : bool :=
  match v with
  | JUndefined | JNull => false
  | JBool b => b
  | JNum (S754_zero _) | JNum S754_nan => false
  | JNum _ => true
  | JStr s => nonEmpty s
  | JArr _ | JObj _ => true
  end.

Fixpoint lookupField (k : jsstring) (fields : list (jsstring * JsVal)) : JsVal :=
  match fields with
  | [] => JUndefined
  | (k', v) :: rest => if jsstring_eqb k k' then v else lookupField k rest
  end.

(** [v.k] (also the destructuring [{k} = v]) for a key that no built-in
    prototype defines: a TypeError on [null] and [undefined], the own
    property of an object, [undefined] on anything else. *)
Definition getProp (v : JsVal) (k : string) : Completion JsVal :=
  match v with
  | JUndefined | JNull => Abrupt (Err "Cannot read properties")
  | JObj fields => Normal (lookupField (lit k) fields)
  | _ => Normal JUndefined
  end.

(** ** HTTP *)

Inductive Method : Type := GET | POST | DELETE.

Record Request : Type := mkRequest {
  method : Method;
  url : jsstring;
  credentialsInclude : bool;
  contentTypeJson : bool;
  (** the value handed to [JSON.stringify], when there is a body *)
  body : option JsVal
}.

Record Response : Type := mkResponse {
  status : N;
  text : Completion jsstring;   (* what [response.text()] settles to *)
  json : Completion JsVal       (* what [response.json()] settles to *)
}.

(** [response.ok] *)
Definition ok (r : Response) : bool := (200 <=? status r) && (status r <=? 299).

Inductive FetchOutcome : Type :=
| FetchResolves (r : Response) : FetchOutcome
| FetchRejects (e : Thrown) : FetchOutcome.

Definition API_BASE_URL : jsstring :=
  lit "https://siwe-siwe-auth.pkf1mn.easypanel.host/api".

Definition endpoint (path : string) : jsstring := API_BASE_URL ++ lit path.

(** ** State *)

(** The four [useState] cells of [AuthProvider]. *)
Record Store : Type := mkStore {
  isAuthenticated : JsVal;
  isLoading : bool;
  error : option jsstring;
  userData : JsVal
}.

Record ProfileFormData : Type := mkForm {
  name : jsstring;
  email : jsstring;
  avatar : jsstring
}.

(** The two [useState] cells of [WalletAuth]. *)
Record View : Type := mkView {
  showProfileForm : bool;
  profileForm : ProfileFormData
}.

(** [Partial<Profile>] *)
Record PartialProfile : Type := mkPartial {
  p_name : option jsstring;
  p_email : option jsstring;
  p_avatar : option jsstring;
  p_createdAt : option jsstring;
  p_updatedAt : option jsstring
}.

Definition field (k : string) (v : option jsstring) : list (jsstring * JsVal) :=
  match v with
  | Some s => [(lit k, JStr s)]
  | None => []
  end.

Definition profileJson (p : PartialProfile) : JsVal :=
  JObj (field "name" (p_name p) ++ field "email" (p_email p)
        ++ field "avatar" (p_avatar p) ++ field "createdAt" (p_createdAt p)
        ++ field "updatedAt" (p_updatedAt p)).

(** The parameters [authenticate] gives to [createSiweMessage]. *)
Record SiweParams : Type := mkSiwe {
  siwe_address : jsstring;
  siwe_chainId : N;
  siwe_domain : jsstring;
  siwe_nonce : jsstring;
  siwe_uri : jsstring;
  siwe_version : jsstring
}.

(** Every call that leaves the function being run, in the order made. *)
Inductive Event : Type :=
| EFetch (r : Request) : Event
| ESign (message : jsstring) : Event
| EConsoleError (msg : jsstring) (arg : option Thrown) : Event
| EAlert (msg : jsstring) : Event
| EPreventDefault : Event
| ESetIsAuthenticated (v : JsVal) : Event
| ESetIsLoading (b : bool) : Event
| ESetError (e : option jsstring) : Event
| ESetUserData (v : JsVal) : Event
| ESetShowProfileForm (b : bool) : Event
| ESetProfileForm (f : ProfileFormData) : Event.

Record World : Type := mkWorld {
  store : Store;
  view : View;
  trace : list Event
}.

Definition isFetch (e : Event) : bool :=
  match e with EFetch _ => true | _ => false end.

(** The requests of a trace, oldest first. *)
Fixpoint requests (t : list Event) : list Request :=
  match t with
  | [] => []
  | EFetch r :: t' => r :: requests t'
  | _ :: t' => requests t'
  end.

(** ** The monad of asynchronous functions

    An [async] function run to completion: it transforms the world and
    ends normally or by a throw (a rejected promise). [await] is bind. *)

Definition Async (A : Type) : Type := World -> Completion A * World.

Definition ret {A} (a : A) : Async A := fun w => (Normal a, w).

Definition throw {A} (e : Thrown) : Async A := fun w => (Abrupt e, w).

Definition bind {A B} (m : Async A) (k : A -> Async B) : Async B :=
  fun w =>
    match m w with
    | (Normal a, w') => k a w'
    | (Abrupt e, w') => (Abrupt e, w')
    end.

Notation "x <- m ;; k" := (bind m (fun x => k))
  (at level 61, m at next level, right associativity).
Notation "m ;; k" := (bind m (fun _ => k))
  (at level 61, right associativity).

(** Awaiting a value that has already settled. *)
Definition settle {A} (c : Completion A) : Async A := fun w => (c, w).

(** [try { block } catch (err) { handler err }] *)
Definition tryCatch {A} (block : Async A) (handler : Thrown -> Async A) : Async A :=
  fun w =>
    match block w with
    | (Normal a, w') => (Normal a, w')
    | (Abrupt e, w') => handler e w'
    end.

(** [try { block } finally { fin }]: the completion of [block] stands
    unless [fin] itself throws. *)
Definition tryFinally {A} (block : Async A) (fin : Async unit) : Async A :=
  fun w =>
    match block w with
    | (c, w') =>
        match fin w' with
        | (Normal _, w'') => (c, w'')
        | (Abrupt e, w'') => (Abrupt e, w'')
        end
    end.

Definition tryCatchFinally {A} (block : Async A) (handler : Thrown -> Async A)
    (fin : Async unit) : Async A :=
  tryFinally (tryCatch block handler) fin.

(** A call whose promise is not awaited and never rejects: it is run to
    completion and its completion is dropped. *)
Definition detached {A} (m : Async A) : Async unit :=
  fun w => (Normal tt, snd (m w)).

Definition emit (e : Event) : Async unit :=
  fun w => (Normal tt, mkWorld (store w) (view w) (trace w ++ [e])).

Definition update (f : Store -> Store) (e : Event) : Async unit :=
  fun w => (Normal tt, mkWorld (f (store w)) (view w) (trace w ++ [e])).

Definition updateView (f : View -> View) (e : Event) : Async unit :=
  fun w => (Normal tt, mkWorld (store w) (f (view w)) (trace w ++ [e])).

Definition setIsAuthenticated (v : JsVal) : Async unit :=
  update (fun s => mkStore v (isLoading s) (error s) (userData s))
         (ESetIsAuthenticated v).

Definition setIsLoading (b : bool) : Async unit :=
  update (fun s => mkStore (isAuthenticated s) b (error s) (userData s))
         (ESetIsLoading b).

Definition setError (e : option jsstring) : Async unit :=
  update (fun s => mkStore (isAuthenticated s) (isLoading s) e (userData s))
         (ESetError e).

Definition setUserData (v : JsVal) : Async unit :=
  update (fun s => mkStore (isAuthenticated s) (isLoading s) (error s) v)
         (ESetUserData v).

Definition setShowProfileForm (b : bool) : Async unit :=
  updateView (fun v => mkView b (profileForm v)) (ESetShowProfileForm b).

Definition setProfileForm (f : ProfileFormData) : Async unit :=
  updateView (fun v => mkView (showProfileForm v) f) (ESetProfileForm f).

Definition consoleError (msg : string) (arg : option Thrown) : Async unit :=
  emit (EConsoleError (lit msg) arg).

Definition alert (msg : string) : Async unit := emit (EAlert (lit msg)).

(** ** The session controller: [AuthProvider] *)

Definition nonceRequest : Request :=
  mkRequest GET (endpoint "/auth/nonce") true false None.

Definition verifyRequest (message signature : jsstring) : Request :=
  mkRequest POST (endpoint "/auth/verify") true true
    (Some (JObj [(lit "message", JStr message);
                 (lit "signature", JStr signature)])).

Definition logoutRequest : Request :=
  mkRequest POST (endpoint "/auth/logout") true false None.

Definition statusRequest : Request :=
  mkRequest GET (endpoint "/auth/status") true false None.

Definition profileRequest : Request :=
  mkRequest GET (endpoint "/a/profile") true false None.

Definition profilePostRequest (profileData : PartialProfile) : Request :=
  mkRequest POST (endpoint "/a/profile") true true
    (Some (profileJson profileData)).

Definition profileDeleteRequest : Request :=
  mkRequest DELETE (endpoint "/a/profile") true false None.

(** [address] of [useAccount()]: [undefined] or a string. *)
Definition truthyAddress (address : option jsstring) : bool :=
  match address with
  | Some a => nonEmpty a
  | None => false
  end.

(** [address as `0x${string}`] *)
Definition addressString (address : option jsstring) : jsstring :=
  match address with
  | Some a => a
  | None => []
  end.

Section Controller.

(** The remote API: what a request settles to, given everything that
    happened before it. *)
Variable server : list Event -> Request -> FetchOutcome.

(** [createSiweMessage] of viem (it throws on parameters it rejects). *)
Variable createSiweMessage : SiweParams -> Completion jsstring.

(** [signMessageAsync] of wagmi: the wallet signs or refuses. *)
Variable signMessageAsync : jsstring -> Completion jsstring.

Definition fetch (req : Request) : Async Response :=
  fun w =>
    let w' := mkWorld (store w) (view w) (trace w ++ [EFetch req]) in
    match server (trace w) req with
    | FetchResolves r => (Normal r, w')
    | FetchRejects e => (Abrupt e, w')
    end.

Definition sign (message : jsstring) : Async jsstring :=
  fun w =>
    (signMessageAsync message,
     mkWorld (store w) (view w) (trace w ++ [ESign message])).

Definition getNonce : Async jsstring :=
  response <- fetch nonceRequest ;;
  if negb (ok response) then throw (Err "Failed to get nonce")
  else settle (text response).

Definition fetchUserData : Async unit :=
  tryCatch
    (response <- fetch profileRequest ;;
     if ok response then
       (data <- settle (json response) ;;
        setUserData data)
     else
       (consoleError "Failed to fetch user data" None ;;
        setUserData JNull))
    (fun err =>
       consoleError "Error fetching user data:" (Some err) ;;
       setUserData JNull).

Definition authenticate (address : option jsstring) : Async unit :=
  if negb (truthyAddress address) then throw (Err "Wallet not connected")
  else
    (setIsLoading true ;;
     setError None ;;
     tryCatchFinally
       (nonce <- getNonce ;;
        message <- settle (createSiweMessage
                             (mkSiwe (addressString address) 1
                                (lit "siwe-siwe-auth.pkf1mn.easypanel.host")
                                nonce
                                (lit "https://siwe-siwe-auth.pkf1mn.easypanel.host")
                                (lit "1"))) ;;
        signature <- sign message ;;
        authResponse <- fetch (verifyRequest message signature) ;;
        if negb (ok authResponse) then throw (Err "Authentication failed")
        else
          (result <- settle (json authResponse) ;;
           success <- settle (getProp result "success") ;;
           if truthy success then
             (setIsAuthenticated (JBool true) ;;
              fetchUserData)
           else throw (Err "Authentication verification failed")))
       (fun err => setError (Some (messageOr err "Authentication failed")))
       (setIsLoading false)).

Definition logout : Async unit :=
  setIsLoading true ;;
  setError None ;;
  tryCatchFinally
    (_ <- fetch logoutRequest ;;
     setIsAuthenticated (JBool false) ;;
     setUserData JNull)
    (fun err => setError (Some (messageOr err "Logout failed")))
    (setIsLoading false).

Definition checkAuthStatus : Async unit :=
  tryCatch
    (statusResponse <- fetch statusRequest ;;
     if ok statusResponse then
       (parsed <- settle (json statusResponse) ;;
        authenticated <- settle (getProp parsed "authenticated") ;;
        setIsAuthenticated authenticated ;;
        if truthy authenticated then fetchUserData else ret tt)
     else
       (setIsAuthenticated (JBool false) ;;
        setUserData JNull))
    (fun err =>
       consoleError "Failed to check auth status:" (Some err) ;;
       setIsAuthenticated (JBool false) ;;
       setUserData JNull).

Definition createOrUpdateProfile (profileData : PartialProfile) : Async unit :=
  setIsLoading true ;;
  setError None ;;
  tryCatchFinally
    (response <- fetch (profilePostRequest profileData) ;;
     if ok response then fetchUserData
     else throw (Err "Failed to update profile"))
    (fun err =>
       setError (Some (messageOr err "Profile update failed")) ;;
       throw err)
    (setIsLoading false).

Definition deleteProfile : Async unit :=
  setIsLoading true ;;
  setError None ;;
  tryCatchFinally
    (response <- fetch profileDeleteRequest ;;
     if ok response then fetchUserData
     else throw (Err "Failed to delete profile"))
    (fun err =>
       setError (Some (messageOr err "Profile deletion failed")) ;;
       throw err)
    (setIsLoading false).

(** The effect on [[isConnected, address]]: it runs at mount and after
    every render in which the connection flag or the address changed. *)
Definition walletEffect (isConnected : bool) (address : option jsstring)
  : Async unit :=
  if isConnected && truthyAddress address then detached checkAuthStatus
  else
    (setIsAuthenticated (JBool false) ;;
     setUserData JNull).

(** ** The profile form: [handleFormSubmit] of [WalletAuth] *)

Definition blank (s : jsstring) : bool := negb (nonEmpty (trim s)).

Definition trimmedField (s : jsstring) : option jsstring :=
  if nonEmpty (trim s) then Some (trim s) else None.

Definition emptyForm : ProfileFormData := mkForm [] [] [].

Definition handleFormSubmit : Async unit :=
  fun w =>
    let profileForm := profileForm (view w) in
    (emit EPreventDefault ;;
     if blank (name profileForm) && blank (email profileForm)
        && blank (avatar profileForm)
     then alert "Please fill in at least one field"
     else if nonEmpty (trim (email profileForm))
             && negb (test emailPattern (trim (email profileForm)))
     then alert "Please enter a valid email address"
     else if nonEmpty (trim (avatar profileForm))
             && negb (test avatarPattern (trim (avatar profileForm)))
     then alert "Please enter a valid image URL (jpg, jpeg, png, gif, webp, svg)"
     else
       let profileData :=
         mkPartial (trimmedField (name profileForm))
                   (trimmedField (email profileForm))
                   (trimmedField (avatar profileForm)) None None in
       tryCatch
         (createOrUpdateProfile profileData ;;
          setShowProfileForm false ;;
          setProfileForm emptyForm)
         (fun err => consoleError "Profile operation failed:" (Some err))) w.

End Controller.

Arguments ok : simpl never.
Arguments lit : simpl never.
Arguments endpoint : simpl never.
Arguments Err : simpl never.

(** ** Reading a run *)

Definition outcome {A} (m : Async A) (w : World) : Completion A := fst (m w).
Definition after {A} (m : Async A) (w : World) : World := snd (m w).

(** The trace once an operation has raised the loading flag and cleared
    the error: the history its first request is made in. *)
Definition started (w : World) : list Event :=
  trace w ++ [ESetIsLoading true; ESetError None].

(** A server that answers the k-th request of the session with the k-th
    outcome of a script, and refuses connections once the script is over. *)
Definition scripted (script : list FetchOutcome)
  : list Event -> Request -> FetchOutcome :=
  fun t _ => nth (List.length (requests t)) script
               (FetchRejects (Err "Failed to fetch")).

Definition respond (st : N) (txt : string) (js : Completion JsVal) : FetchOutcome :=
  FetchResolves (mkResponse st (Normal (lit txt)) js).

Definition notJson : Completion JsVal := Abrupt (Err "Unexpected token").

(** The ways [fetchUserData] can fail: the endpoint cannot be reached, it
    answers outside 2xx, or the body does not parse. *)
Inductive fetch_fails (o : FetchOutcome) : Prop :=
| fails_unreachable e : o = FetchRejects e -> fetch_fails o
| fails_status r : o = FetchResolves r -> ok r = false -> fetch_fails o
| fails_body r e :
    o = FetchResolves r -> ok r = true -> json r = Abrupt e -> fetch_fails o.

(** What [authenticate] asks of its collaborators, step by step. *)
Section Handshake.

Variable server : list Event -> Request -> FetchOutcome.
Variable createSiweMessage : SiweParams -> Completion jsstring.
Variable signMessageAsync : jsstring -> Completion jsstring.
Variable address : option jsstring.
Variable w : World.

Definition siweParams (nonce : jsstring) : SiweParams :=
  mkSiwe (addressString address) 1
    (lit "siwe-siwe-auth.pkf1mn.easypanel.host") nonce
    (lit "https://siwe-siwe-auth.pkf1mn.easypanel.host") (lit "1").

(** The nonce endpoint answered 2xx with a readable body. *)
Definition nonce_is (nonce : jsstring) : Prop :=
  exists r, server (started w) nonceRequest = FetchResolves r
            /\ ok r = true /\ text r = Normal nonce.

Definition message_is (message : jsstring) : Prop :=
  exists nonce, nonce_is nonce
                /\ createSiweMessage (siweParams nonce) = Normal message.

Definition signed (message signature : jsstring) : Prop :=
  message_is message /\ signMessageAsync message = Normal signature.

(** The history in which the verify request is made. *)
Definition signedTrace (message : jsstring) : list Event :=
  started w ++ [EFetch nonceRequest; ESign message].

Definition verify_outcome (message signature : jsstring) : FetchOutcome :=
  server (signedTrace message) (verifyRequest message signature).

(** The verify endpoint answered 2xx with a body whose [success] is truthy. *)
Definition verify_accepts (message signature : jsstring) : Prop :=
  signed message signature /\
  exists r result success,
    verify_outcome message signature = FetchResolves r
    /\ ok r = true /\ json r = Normal result
    /\ getProp result "success" = Normal success /\ truthy success = true.

(** The history in which [fetchUserData] runs after a successful verify. *)
Definition verifiedTrace (message signature : jsstring) : list Event :=
  signedTrace message
  ++ [EFetch (verifyRequest message signature); ESetIsAuthenticated (JBool true)].

(** Every way a step of the handshake can fail once the wallet address is
    there, in the order of the steps. *)
Inductive authenticate_fails : Prop :=
| nonce_unreachable e :
    server (started w) nonceRequest = FetchRejects e -> authenticate_fails
| nonce_refused r :
    server (started w) nonceRequest = FetchResolves r -> ok r = false ->
    authenticate_fails
| nonce_unreadable r e :
    server (started w) nonceRequest = FetchResolves r -> ok r = true ->
    text r = Abrupt e -> authenticate_fails
| message_not_built nonce e :
    nonce_is nonce -> createSiweMessage (siweParams nonce) = Abrupt e ->
    authenticate_fails
| signing_refused message e :
    message_is message -> signMessageAsync message = Abrupt e ->
    authenticate_fails
| verify_unreachable message signature e :
    signed message signature ->
    verify_outcome message signature = FetchRejects e -> authenticate_fails
| verify_refused message signature r :
    signed message signature ->
    verify_outcome message signature = FetchResolves r -> ok r = false ->
    authenticate_fails
| verify_unreadable message signature r e :
    signed message signature ->
    verify_outcome message signature = FetchResolves r -> ok r = true ->
    json r = Abrupt e -> authenticate_fails
| verify_not_an_object message signature r result e :
    signed message signature ->
    verify_outcome message signature = FetchResolves r -> ok r = true ->
    json r = Normal result -> getProp result "success" = Abrupt e ->
    authenticate_fails
| verify_denied message signature r result success :
    signed message signature ->
    verify_outcome message signature = FetchResolves r -> ok r = true ->
    json r = Normal result -> getProp result "success" = Normal success ->
    truthy success = false -> authenticate_fails.

End Handshake.

(** Requests to [GET /a/profile], to count them in a trace. *)
Definition isProfileGet (r : Request) : bool :=
  match method r with
  | GET => jsstring_eqb (url r) (endpoint "/a/profile")
  | _ => false
  end.

Definition countRequests (p : Request -> bool) (t : list Event) : nat :=
  List.length (filter p (requests t)).

(** The events a run added to the trace. *)
Definition newEvents (w w' : World) : list Event :=
  skipn (List.length (trace w)) (trace w').

(** ** Sample data *)

Definition noView : View := mkView false emptyForm.

Definition freshStore : Store := mkStore (JBool false) false None JNull.

Definition sampleUserData : JsVal :=
  JObj [(lit "user", JObj [(lit "id", JStr (lit "1"));
                           (lit "walletAddress", JStr (lit "0xA11CE"))]);
        (lit "profile", JNull)].

Definition signedInStore : Store :=
  mkStore (JBool true) false None sampleUserData.

Definition freshWorld : World := mkWorld freshStore noView [].
Definition signedInWorld : World := mkWorld signedInStore noView [].

Definition offline : list Event -> Request -> FetchOutcome := scripted [].

Definition alice : option jsstring := Some (lit "0xA11CE").
Definition bob : option jsstring := Some (lit "0xB0B").

(** A SIWE library that puts the address and the nonce on two lines, and a
    wallet that signs anything. *)
Definition siwe0 (p : SiweParams) : Completion jsstring :=
  Normal (siwe_address p ++ lit " " ++ siwe_nonce p).

Definition signer0 (message : jsstring) : Completion jsstring :=
  Normal (lit "0xdead").

Definition refusingSigner (message : jsstring) : Completion jsstring :=
  Abrupt (Err "User rejected the request.").

Definition successBody : Completion JsVal :=
  Normal (JObj [(lit "success", JBool true)]).

Definition failureBody : Completion JsVal :=
  Normal (JObj [(lit "success", JBool false)]).

Definition authenticatedBody (b : bool) : Completion JsVal :=
  Normal (JObj [(lit "authenticated", JBool b)]).

(** Scripts of the server, request by request. *)
Definition nonceOk : FetchOutcome := respond 200 "abc123" notJson.

(** Nonce, accepted verification, then a profile endpoint that is down. *)
Definition acceptsThenProfileDown : list Event -> Request -> FetchOutcome :=
  scripted [nonceOk; respond 200 "" successBody; respond 500 "" notJson].

Definition nonceOnly : list Event -> Request -> FetchOutcome :=
  scripted [nonceOk].

Definition verifyUnauthorized : list Event -> Request -> FetchOutcome :=
  scripted [nonceOk; respond 401 "" notJson].

Definition verifyDenies : list Event -> Request -> FetchOutcome :=
  scripted [nonceOk; respond 200 "" failureBody].

(** The cookie is still valid: status says authenticated, the profile
    endpoint serves the data of the cookie's user. *)
Definition stillValid : list Event -> Request -> FetchOutcome :=
  scripted [respond 200 "" (authenticatedBody true);
            respond 200 "" (Normal sampleUserData)].


Definition serverError : list Event -> Request -> FetchOutcome :=
  scripted [respond 500 "Internal Server Error" notJson].

(** The mutation succeeds and the refetch serves the data. *)
Definition savesProfile : list Event -> Request -> FetchOutcome :=
  scripted [respond 200 "" notJson; respond 200 "" (Normal sampleUserData)].

(** A part of an accepted email (before [@], between [@] and the last
    separating dot, after it): non-empty, free of white space and of [@]. *)
Definition emailPart (s : jsstring) : Prop :=
  s <> [] /\ forallb (fun c => negb (isSpace c || (c =? code "@"))) s = true.

(** [{}] and [{email: "not-an-email"}] *)
Definition emptyProfile : PartialProfile := mkPartial None None None None None.

Definition badEmailProfile : PartialProfile :=
  mkPartial None (Some (lit "not-an-email")) None None None.

Definition formWorld (f : ProfileFormData) : World :=
  mkWorld signedInStore (mkView true f) [].

Definition blankForm : ProfileFormData := mkForm (lit "  ") [] (lit " ").

Definition badEmailForm : ProfileFormData :=
  mkForm (lit "Alice") (lit " not-an-email ") [].

Definition message0 : jsstring := lit "0xA11CE abc123".
Definition signature0 : jsstring := lit "0xdead".

Ltac unfold_ops :=
  unfold outcome, after, tryCatchFinally, tryFinally, tryCatch, bind, ret,
    throw, settle, detached, setIsAuthenticated, setIsLoading, setError,
    setUserData, setShowProfileForm, setProfileForm, consoleError, alert,
    emit, update, updateView, fetch, sign in *.

(** Re-associates a trace to [history ++ [e1; ...; en]]. *)
Ltac flatten_trace := repeat (rewrite <- app_assoc; simpl).

(** Rewrites with every known answer of a collaborator that the goal asks
    for, which runs the program one step further. *)
Ltac use_facts :=
  repeat match goal with
         | H : ?l = _ |- context [?l] => rewrite H; simpl; flatten_trace
         end.

Ltac open_facts :=
  repeat match goal with
         | H : exists _, _ |- _ => destruct H
         | H : _ /\ _ |- _ => destruct H
         end;
  repeat match goal with
         | H : context [(_ ++ _) ++ _] |- _ =>
             rewrite <- app_assoc in H; simpl in H
         end.

Ltac open_handshake :=
  unfold verify_accepts, signed, message_is, nonce_is, verify_outcome,
    verifiedTrace, signedTrace, siweParams, started in *.

(** ** The other handlers of [WalletAuth] *)

Section Handlers.

Variable server : list Event -> Request -> FetchOutcome.
Variable createSiweMessage : SiweParams -> Completion jsstring.
Variable signMessageAsync : jsstring -> Completion jsstring.

(** [window.confirm]: what the user answers to the dialog. *)
Variable confirm : jsstring -> bool.

Definition handleCreateProfile : Async unit :=
  setProfileForm emptyForm ;;
  setShowProfileForm true.

Definition handleDeleteProfile : Async unit :=
  if confirm (lit "Are you sure you want to delete your profile? This action cannot be undone.")
  then
    tryCatch (deleteProfile server)
      (fun err => consoleError "Profile deletion failed:" (Some err))
  else ret tt.

Definition handleAuthenticate (address : option jsstring) : Async unit :=
  tryCatch (authenticate server createSiweMessage signMessageAsync address)
    (fun err => consoleError "Authentication failed:" (Some err)).

Definition handleLogout : Async unit :=
  tryCatch (logout server)
    (fun err => consoleError "Logout failed:" (Some err)).

Definition handleRetryFetchData : Async unit :=
  tryCatch (fetchUserData server)
    (fun err => consoleError "Retry fetch failed:" (Some err)).

End Handlers.

(** [String.prototype.slice]: a negative index counts from the end, and
    both indices are clamped to the string. *)
Definition clampIndex (len i : Z) : Z :=
  (if i <? 0 then Z.max (len + i) 0 else Z.min i len)%Z.

Definition slice (s : jsstring) (start : Z) (stop : option Z) : jsstring :=
  let len := Z.of_nat (List.length s) in
  let from := clampIndex len start in
  let to := match stop with
            | Some e => clampIndex len e
            | None => len
            end in
  firstn (Z.to_nat (Z.max (to - from) 0)) (skipn (Z.to_nat from) s).

(** [`${addr.slice(0, 6)}...${addr.slice(-4)}`] *)
Definition formatAddress (addr : jsstring) : jsstring :=
  slice addr 0%Z (Some 6%Z) ++ lit "..." ++ slice addr (-4)%Z None.

(** ** The earlier revision of [AuthProvider]

    [src/contexts/AuthContext.tsx] as it was before the profile features:
    three state cells, a local server, no [fetchUserData].  It runs in the
    same world; the [userData] cell is not its own and it never writes it. *)

Module Legacy.

Definition API_BASE_URL : jsstring := lit "http://localhost:8080/api".

Definition endpoint (path : string) : jsstring := API_BASE_URL ++ lit path.

Definition nonceRequest : Request :=
  mkRequest GET (endpoint "/auth/nonce") true false None.

Definition verifyRequest (message signature : jsstring) : Request :=
  mkRequest POST (endpoint "/auth/verify") true true
    (Some (JObj [(lit "message", JStr message);
                 (lit "signature", JStr signature)])).

Definition logoutRequest : Request :=
  mkRequest POST (endpoint "/auth/logout") true false None.

Definition statusRequest : Request :=
  mkRequest GET (endpoint "/auth/status") true false None.

Section Controller.

Variable server : list Event -> Request -> FetchOutcome.
Variable createSiweMessage : SiweParams -> Completion jsstring.
Variable signMessageAsync : jsstring -> Completion jsstring.

Definition getNonce : Async jsstring :=
  response <- fetch server nonceRequest ;;
  if negb (ok response) then throw (Err "Failed to get nonce")
  else settle (text response).

Definition authenticate (address : option jsstring) : Async unit :=
  if negb (truthyAddress address) then throw (Err "Wallet not connected")
  else
    (setIsLoading true ;;
     setError None ;;
     tryCatchFinally
       (nonce <- getNonce ;;
        message <- settle (createSiweMessage
                             (mkSiwe (addressString address) 1
                                (lit "localhost:8080") nonce
                                (lit "http://localhost:8080") (lit "1"))) ;;
        signature <- sign signMessageAsync message ;;
        authResponse <- fetch server (verifyRequest message signature) ;;
        if negb (ok authResponse) then throw (Err "Authentication failed")
        else
          (result <- settle (json authResponse) ;;
           success <- settle (getProp result "success") ;;
           if truthy success then setIsAuthenticated (JBool true)
           else throw (Err "Authentication verification failed")))
       (fun err => setError (Some (messageOr err "Authentication failed")))
       (setIsLoading false)).

Definition logout : Async unit :=
  setIsLoading true ;;
  setError None ;;
  tryCatchFinally
    (_ <- fetch server logoutRequest ;;
     setIsAuthenticated (JBool false))
    (fun err => setError (Some (messageOr err "Logout failed")))
    (setIsLoading false).

Definition checkAuthStatus : Async unit :=
  tryCatch
    (statusResponse <- fetch server statusRequest ;;
     if ok statusResponse then
       (parsed <- settle (json statusResponse) ;;
        authenticated <- settle (getProp parsed "authenticated") ;;
        setIsAuthenticated authenticated)
     else setIsAuthenticated (JBool false))
    (fun err =>
       consoleError "Failed to check auth status:" (Some err) ;;
       setIsAuthenticated (JBool false)).

Definition walletEffect (isConnected : bool) (address : option jsstring)
  : Async unit :=
  if isConnected && truthyAddress address then detached checkAuthStatus
  else setIsAuthenticated (JBool false).

End Controller.

End Legacy.

Arguments Legacy.endpoint : simpl never.

(** ** Vocabulary of the further properties *)

(** An ASCII word read without regard to case, as the [i] flag does. *)
Fixpoint sameIgnoringCase (word : list ascii) (s : jsstring) : bool :=
  match word, s with
  | [], [] => true
  | a :: word', c :: s' =>
      (if c <? 128 then asciiUpper c =? asciiUpper (code a) else false)
      && sameIgnoringCase word' s'
  | _, _ => false
  end.

Definition isWord (word : string) (s : jsstring) : Prop :=
  sameIgnoringCase (list_ascii_of_string word) s = true.

Definition isImageExtension (s : jsstring) : Prop :=
  isWord "jpg" s \/ isWord "jpeg" s \/ isWord "png" s \/ isWord "gif" s
  \/ isWord "webp" s \/ isWord "svg" s.

(** What [handleFormSubmit] hands to [createOrUpdateProfile]. *)
Definition submittedProfile (f : ProfileFormData) : PartialProfile :=
  mkPartial (trimmedField (name f)) (trimmedField (email f))
            (trimmedField (avatar f)) None None.

(** The three checks of [handleFormSubmit] all pass. *)
Definition passesValidation (f : ProfileFormData) : Prop :=
  blank (name f) && blank (email f) && blank (avatar f) = false
  /\ (blank (email f) = true \/ test emailPattern (trim (email f)) = true)
  /\ (blank (avatar f) = true \/ test avatarPattern (trim (avatar f)) = true).

(** A request that does not come back 2xx. *)
Inductive request_fails (o : FetchOutcome) : Prop :=
| request_rejected e : o = FetchRejects e -> request_fails o
| request_refused r : o = FetchResolves r -> ok r = false -> request_fails o.

Definition agree (_ : jsstring) : bool := true.
Definition decline (_ : jsstring) : bool := false.

Definition goodForm : ProfileFormData :=
  mkForm (lit "  Alice ") (lit "alice@example.org") (lit "   ").

Definition badAvatarForm : ProfileFormData :=
  mkForm (lit "Alice") [] (lit "ftp://example.org/me.png").

Definition emptyBody : list Event -> Request -> FetchOutcome :=
  scripted [respond 200 "" (Normal (JObj []))].

Definition nullBody : list Event -> Request -> FetchOutcome :=
  scripted [respond 200 "" (Normal JNull)].

Definition acceptsAll : list Event -> Request -> FetchOutcome :=
  scripted [nonceOk; respond 200 "" successBody;
            respond 200 "" (Normal sampleUserData)].

Definition sameTwice : list Event -> Request -> FetchOutcome :=
  scripted [respond 200 "" (Normal sampleUserData);
            respond 200 "" (Normal sampleUserData)].

Definition signerThrowing (v : Thrown) (message : jsstring) : Completion jsstring :=
  Abrupt v.

(** A run from [w] to [w'] that sent the mutation [sent] and then
    refreshed the user data: the profile is requested right after the
    mutation, [setUserData] is called with what that request gave — the body
    of a readable 2xx answer, [null] when the request failed — and that is
    the user data the run ends with. *)
Definition refreshes_user_data (server : list Event -> Request -> FetchOutcome)
    (w w' : World) (sent : Request) : Prop :=
  let answer := server (started w ++ [EFetch sent]) profileRequest in
  (exists data log,
     newEvents w w' =
       [ESetIsLoading true; ESetError None; EFetch sent; EFetch profileRequest]
       ++ log ++ [ESetUserData data; ESetIsLoading false]
     /\ requests log = []
     /\ userData (store w') = data)
  /\ (forall r d,
        answer = FetchResolves r -> ok r = true -> json r = Normal d ->
        userData (store w') = d)
  /\ (fetch_fails answer -> userData (store w') = JNull).

(** The mutation succeeds and the refetch is answered 500. *)
Definition savesThenDown : list Event -> Request -> FetchOutcome :=
  scripted [respond 200 "" notJson; respond 500 "" notJson].

(** The world once [handleFormSubmit] has called [preventDefault], and the
    history in which it then posts the profile. *)
Definition preventDefaultDone (w : World) : World :=
  mkWorld (store w) (view w) (trace w ++ [EPreventDefault]).

Definition submitStarted (w : World) : list Event :=
  trace w ++ [EPreventDefault; ESetIsLoading true; ESetError None].

(** A submit that only showed an alert. *)
Definition alerted (w : World) (msg : string) : Completion unit * World :=
  (Normal tt,
   mkWorld (store w) (view w) (trace w ++ [EPreventDefault; EAlert (lit msg)])).

(** ** The form as [handleFormSubmit] finds it at run time

    [ProfileFormData] declares three strings, and typing into the inputs
    and [handleCreateProfile] only ever put strings there.
    [handleEditProfile] however fills the form from [userData.profile],
    which is the server's JSON, unchecked: a field can then hold any
    truthy value.  The handler below is [handleFormSubmit] over such a
    form, the form being the one of the render the handler closes over. *)

Record RawForm : Type := mkRaw {
  raw_name : JsVal;
  raw_email : JsVal;
  raw_avatar : JsVal
}.

(** A form whose fields are strings. *)
Definition stringForm (f : ProfileFormData) : RawForm :=
  mkRaw (JStr (name f)) (JStr (email f)) (JStr (avatar f)).

(** [v.trim()]: defined on strings; on anything else a TypeError ([null]
    and [undefined] have no properties, the other values no [trim]). *)
Definition trimOf (v : JsVal) : Completion jsstring :=
  match v with
  | JStr s => Normal (trim s)
  | _ => Abrupt (Err "trim is not a function")
  end.


Section RawHandlers.

Variable server : list Event -> Request -> FetchOutcome.

Definition trimmed (v : JsVal) : Async jsstring := settle (trimOf v).

(** [v.trim() && !pattern.test(v.trim())] *)
Definition failsPattern (pattern : regex) (v : JsVal) : Async bool :=
  t <- trimmed v ;;
  if nonEmpty t then (t' <- trimmed v ;; ret (negb (test pattern t')))
  else ret false.

(** [if (v.trim()) profileData.k = v.trim()] *)
Definition nonEmptyField (v : JsVal) : Async (option jsstring) :=
  t <- trimmed v ;;
  if nonEmpty t then (t' <- trimmed v ;; ret (Some t')) else ret None.

Definition handleFormSubmitOn (profileForm : RawForm) : Async unit :=
  emit EPreventDefault ;;
  allBlank <-
    (n <- trimmed (raw_name profileForm) ;;
     if nonEmpty n then ret false
     else
       (e <- trimmed (raw_email profileForm) ;;
        if nonEmpty e then ret false
        else
          (a <- trimmed (raw_avatar profileForm) ;;
           ret (negb (nonEmpty a))))) ;;
  if allBlank then alert "Please fill in at least one field"
  else
    (badEmail <- failsPattern emailPattern (raw_email profileForm) ;;
     if badEmail then alert "Please enter a valid email address"
     else
       (badAvatar <- failsPattern avatarPattern (raw_avatar profileForm) ;;
        if badAvatar
        then alert "Please enter a valid image URL (jpg, jpeg, png, gif, webp, svg)"
        else
          (name <- nonEmptyField (raw_name profileForm) ;;
           email <- nonEmptyField (raw_email profileForm) ;;
           avatar <- nonEmptyField (raw_avatar profileForm) ;;
           tryCatch
             (createOrUpdateProfile server
                (mkPartial name email avatar None None) ;;
              setShowProfileForm false ;;
              setProfileForm emptyForm)
             (fun err => consoleError "Profile operation failed:" (Some err))))).

End RawHandlers.






(** Case analysis on every answer a run asks its collaborators for. *)
Ltac crunch :=
  repeat match goal with
         | |- context [match ?srv ?t ?r with
                       | FetchResolves _ => _ | FetchRejects _ => _ end] =>
             destruct (srv t r) eqn:?; simpl; flatten_trace
         | |- context [if negb (ok ?r) then _ else _] =>
             destruct (ok r) eqn:?; simpl; flatten_trace
         | |- context [if ok ?r then _ else _] =>
             destruct (ok r) eqn:?; simpl; flatten_trace
         | |- context [if truthy ?v then _ else _] =>
             destruct (truthy v) eqn:?; simpl; flatten_trace
         | |- context [match ?x with Normal _ => _ | Abrupt _ => _ end] =>
             destruct x eqn:?; simpl; flatten_trace
         end.

(** * Theorems *)

(** ** [fetchUserData] *)

Lemma requests_app (t1 t2 : list Event) :
  requests (t1 ++ t2) = requests t1 ++ requests t2.
Proof.
  induction t1 as [|e t1 IH]; simpl; [reflexivity|].
  destruct e; simpl; rewrite ?IH; reflexivity.
Qed.

Lemma newEvents_app (w w' : World) (added : list Event) :
  trace w' = trace w ++ added -> newEvents w w' = added.
Proof.
  intros H. unfold newEvents. rewrite H. clear H.
  induction (trace w) as [|e t IH]; simpl; [reflexivity | exact IH].
Qed.

(** Whatever the server does, [fetchUserData] returns normally, issues one
    request, writes only [userData], and on failure writes [null] after one
    diagnostic. *)
Lemma fetchUserData_effect server (w : World) :
  exists data log,
    fetchUserData server w =
      (Normal tt,
       mkWorld (mkStore (isAuthenticated (store w)) (isLoading (store w))
                        (error (store w)) data)
               (view w)
               (trace w ++ EFetch profileRequest :: log ++ [ESetUserData data]))
    /\ requests log = []
    /\ (fetch_fails (server (trace w) profileRequest) ->
        data = JNull /\ exists msg arg, log = [EConsoleError msg arg])
    /\ (forall r d, server (trace w) profileRequest = FetchResolves r ->
                    ok r = true -> json r = Normal d -> data = d /\ log = []).
Proof.
  unfold fetchUserData. unfold_ops. simpl.
  destruct (server (trace w) profileRequest) as [r|e] eqn:Ho; simpl.
  - destruct (ok r) eqn:Hok; simpl.
    + destruct (json r) as [d|e] eqn:Hj; simpl.
      * exists d, []. flatten_trace.
        split; [reflexivity | split; [reflexivity | split]].
        -- intros F. inversion F; congruence.
        -- intros r' d' Hr' _ Hd'. split; congruence.
      * exists JNull, [EConsoleError (lit "Error fetching user data:") (Some e)].
        flatten_trace.
        split; [reflexivity | split; [reflexivity | split]].
        -- intros _. eauto.
        -- intros r' d' Hr' _ Hd'. congruence.
    + exists JNull, [EConsoleError (lit "Failed to fetch user data") None].
      flatten_trace.
      split; [reflexivity | split; [reflexivity | split]].
      * intros _. eauto.
      * intros r' d' Hr' Hok' _. congruence.
  - exists JNull, [EConsoleError (lit "Error fetching user data:") (Some e)].
    flatten_trace.
    split; [reflexivity | split; [reflexivity | split]].
    + intros _. eauto.
    + intros r' d' Hr'. congruence.
Qed.

(** C8 — [fetchUserData] never throws into its caller; when the endpoint is
    unreachable, answers outside 2xx or sends a body that does not parse,
    it logs one diagnostic, sets [userData] to [null] and leaves the error
    field (and the other two cells) as they were. *)
Theorem fetchUserData_swallows_failures server (w : World) :
  outcome (fetchUserData server) w = Normal tt /\
  (fetch_fails (server (trace w) profileRequest) ->
   let w' := after (fetchUserData server) w in
   userData (store w') = JNull
   /\ error (store w') = error (store w)
   /\ isAuthenticated (store w') = isAuthenticated (store w)
   /\ isLoading (store w') = isLoading (store w)
   /\ exists msg arg,
        newEvents w w' =
          [EFetch profileRequest; EConsoleError msg arg; ESetUserData JNull]).
Proof.
  destruct (fetchUserData_effect server w)
    as (data & log & Hrun & _ & Hfail & _).
  unfold outcome, after. rewrite Hrun. simpl. split; [reflexivity|].
  intros F. destruct (Hfail F) as (-> & msg & arg & ->).
  repeat (split; [reflexivity|]).
  exists msg, arg. apply newEvents_app. reflexivity.
Qed.

Lemma fetchUserData_swallows_failures_witness :
  fetch_fails (offline (trace signedInWorld) profileRequest)
  /\ fetch_fails (scripted [respond 500 "oops" notJson] (trace signedInWorld)
                    profileRequest)
  /\ fetch_fails (scripted [respond 200 "<html>" notJson] (trace signedInWorld)
                    profileRequest)
  /\ userData (store (after (fetchUserData offline) signedInWorld)) = JNull
  /\ error (store (after (fetchUserData offline) signedInWorld)) = None.
Proof.
  assert (F : fetch_fails (offline (trace signedInWorld) profileRequest))
    by (eapply fails_unreachable; reflexivity).
  split; [exact F|].
  split; [eapply fails_status; reflexivity|].
  split; [eapply fails_body; reflexivity|].
  destruct (proj2 (fetchUserData_swallows_failures offline signedInWorld) F)
    as (Hd & He & _).
  split; [exact Hd | exact He].
Defined.

(** ** [logout] *)

(** C1, as the code has it — [logout] returns normally in every case.  When
    the logout request settles, with whatever status, it ends with
    [isAuthenticated] false, [userData] null, no error and the loading flag
    down.  When the request is rejected, the catch block records the
    message, and [isAuthenticated] and [userData] keep their values. *)
Theorem logout_clears_once_request_settles server (w : World) :
  outcome (logout server) w = Normal tt
  /\ (forall r, server (started w) logoutRequest = FetchResolves r ->
        store (after (logout server) w) = mkStore (JBool false) false None JNull)
  /\ (forall e, server (started w) logoutRequest = FetchRejects e ->
        store (after (logout server) w) =
          mkStore (isAuthenticated (store w)) false
                  (Some (messageOr e "Logout failed")) (userData (store w))).
Proof.
  unfold logout, started. unfold_ops. simpl. flatten_trace.
  destruct (server (trace w ++ [ESetIsLoading true; ESetError None])
              logoutRequest) as [r|e]; simpl.
  - split; [reflexivity|]. split; [reflexivity|]. intros e H. discriminate H.
  - split; [reflexivity|]. split.
    + intros r H. discriminate H.
    + intros e' H. injection H as <-. reflexivity.
Qed.

Lemma logout_clears_once_request_settles_witness :
  store (after (logout (scripted [respond 500 "Internal Server Error" notJson]))
               signedInWorld) = mkStore (JBool false) false None JNull
  /\ store (after (logout offline) signedInWorld) =
       mkStore (JBool true) false (Some (lit "Failed to fetch")) sampleUserData.
Proof.
  split.
  - eapply (proj1 (proj2 (logout_clears_once_request_settles _ signedInWorld))).
    reflexivity.
  - apply (proj2 (proj2 (logout_clears_once_request_settles offline signedInWorld))
             (Err "Failed to fetch")).
    reflexivity.
Defined.

(** C1, as stated, fails — with the endpoint unreachable, a signed-in
    session is still signed in after [logout], and its user data is still
    there. *)
Lemma logout_rejected_keeps_session :
  let w' := after (logout offline) signedInWorld in
  isAuthenticated (store w') = JBool true
  /\ userData (store w') = sampleUserData
  /\ ~ (isAuthenticated (store w') = JBool false /\ userData (store w') = JNull).
Proof.
  vm_compute. split; [reflexivity|]. split; [reflexivity|].
  intros [H _]. discriminate H.
Qed.

(** ** [authenticate] without a wallet *)

(** C6 — with no wallet address, [authenticate] throws
    ['Wallet not connected'] and has made no call at all: no request to the
    nonce endpoint, to the verify endpoint or to any other, and no signing. *)
Theorem authenticate_requires_wallet server createSiweMessage signMessageAsync
    (address : option jsstring) (w : World) :
  truthyAddress address = false ->
  let run := authenticate server createSiweMessage signMessageAsync address in
  outcome run w = Abrupt (Err "Wallet not connected")
  /\ newEvents w (after run w) = []
  /\ requests (trace (after run w)) = requests (trace w).
Proof.
  intros H. unfold authenticate, outcome, after. rewrite H. simpl.
  split; [reflexivity|]. split; [|reflexivity].
  apply newEvents_app. rewrite app_nil_r. reflexivity.
Qed.

Lemma authenticate_requires_wallet_witness :
  outcome (authenticate offline siwe0 signer0 None) freshWorld
    = Abrupt (Err "Wallet not connected")
  /\ requests (trace (after (authenticate offline siwe0 signer0 (Some []))
                            freshWorld)) = [].
Proof.
  split.
  - apply (authenticate_requires_wallet offline siwe0 signer0 None freshWorld).
    reflexivity.
  - apply (authenticate_requires_wallet offline siwe0 signer0 (Some [])
             freshWorld).
    reflexivity.
Defined.

(** ** [authenticate] with a wallet *)

Section Authenticate.

Variable server : list Event -> Request -> FetchOutcome.
Variable createSiweMessage : SiweParams -> Completion jsstring.
Variable signMessageAsync : jsstring -> Completion jsstring.
Variable address : option jsstring.
Variable w : World.

Let run := authenticate server createSiweMessage signMessageAsync address.

(** A failed step ends the call normally, with the message of what was
    thrown in the error field, the loading flag down, and the other two
    cells untouched. *)
Lemma authenticate_failure_run :
  truthyAddress address = true ->
  authenticate_fails server createSiweMessage signMessageAsync address w ->
  exists msg,
    outcome run w = Normal tt
    /\ store (after run w) =
         mkStore (isAuthenticated (store w)) false (Some msg)
                 (userData (store w)).
Proof.
  intros Ha F. subst run.
  unfold authenticate. rewrite Ha. simpl.
  unfold getNonce. unfold_ops. simpl. flatten_trace.
  destruct F; open_handshake; open_facts; use_facts;
    eexists; split; reflexivity.
Qed.

(** An accepted verification: the whole run, event by event. *)
Lemma authenticate_success_run message signature :
  truthyAddress address = true ->
  verify_accepts server createSiweMessage signMessageAsync address w
    message signature ->
  exists data log,
    run w =
      (Normal tt,
       mkWorld (mkStore (JBool true) false None data) (view w)
         (verifiedTrace w message signature
          ++ EFetch profileRequest :: log
          ++ [ESetUserData data; ESetIsLoading false]))
    /\ requests log = []
    /\ (fetch_fails (server (verifiedTrace w message signature) profileRequest)
        -> data = JNull).
Proof.
  intros Ha V. subst run.
  unfold authenticate. rewrite Ha. simpl.
  unfold getNonce. unfold_ops. simpl. flatten_trace.
  open_handshake. open_facts. use_facts.
  match goal with
  | |- context [fetchUserData server ?W] =>
      destruct (fetchUserData_effect server W)
        as (data & log & Hrun & Hreq & Hfail & _)
  end.
  rewrite Hrun. simpl in *. exists data, log.
  split; [|split].
  - flatten_trace. reflexivity.
  - exact Hreq.
  - flatten_trace. intros F. apply Hfail. exact F.
Qed.

(** The failure modes are all there is besides success. *)
Lemma authenticate_fails_or_accepts :
  authenticate_fails server createSiweMessage signMessageAsync address w
  \/ exists message signature,
       verify_accepts server createSiweMessage signMessageAsync address w
         message signature.
Proof.
  destruct (server (started w) nonceRequest) as [r|e] eqn:Hn;
    [|left; eapply nonce_unreachable; eauto].
  destruct (ok r) eqn:Hok; [|left; eapply nonce_refused; eauto].
  destruct (text r) as [nonce|e] eqn:Ht;
    [|left; eapply nonce_unreadable; eauto].
  assert (N1 : nonce_is server w nonce) by (exists r; auto).
  destruct (createSiweMessage (siweParams address nonce)) as [message|e] eqn:Hm;
    [|left; eapply message_not_built; eauto].
  assert (M1 : message_is server createSiweMessage address w message)
    by (exists nonce; auto).
  destruct (signMessageAsync message) as [signature|e] eqn:Hs;
    [|left; eapply signing_refused; eauto].
  assert (S1 : signed server createSiweMessage signMessageAsync address w
                 message signature) by (split; auto).
  destruct (verify_outcome server w message signature) as [r'|e] eqn:Hv;
    [|left; eapply verify_unreachable; eauto].
  destruct (ok r') eqn:Hok'; [|left; eapply verify_refused; eauto].
  destruct (json r') as [result|e] eqn:Hj;
    [|left; eapply verify_unreadable; eauto].
  destruct (getProp result "success") as [success|e] eqn:Hg;
    [|left; eapply verify_not_an_object; eauto].
  destruct (truthy success) eqn:Htr; [|left; eapply verify_denied; eauto].
  right. exists message, signature. split; [exact S1|].
  exists r', result, success. auto.
Qed.

(** C3 — after an OK verify response whose body has a truthy [success]
    (so for [{success: true}]), [authenticate] sets [isAuthenticated] to
    true and then calls [fetchUserData], which issues the one and only
    [GET /a/profile] of the run; when that fetch fails, [isAuthenticated]
    is still true at the end, [userData] is null and no error is recorded. *)
Theorem authenticate_success_keeps_session message signature :
  truthyAddress address = true ->
  verify_accepts server createSiweMessage signMessageAsync address w
    message signature ->
  let w' := after run w in
  outcome run w = Normal tt
  /\ isAuthenticated (store w') = JBool true
  /\ (exists log,
        newEvents w w' =
          [ESetIsLoading true; ESetError None; EFetch nonceRequest;
           ESign message; EFetch (verifyRequest message signature);
           ESetIsAuthenticated (JBool true); EFetch profileRequest] ++ log
        /\ requests log = [])
  /\ countRequests isProfileGet (newEvents w w') = 1%nat
  /\ (fetch_fails (server (verifiedTrace w message signature) profileRequest) ->
      isAuthenticated (store w') = JBool true
      /\ userData (store w') = JNull
      /\ error (store w') = None).
Proof.
  intros Ha V.
  destruct (authenticate_success_run message signature Ha V)
    as (data & log & Hrun & Hreq & Hfail).
  assert (Hnew : newEvents w (after run w) =
                 [ESetIsLoading true; ESetError None; EFetch nonceRequest;
                  ESign message; EFetch (verifyRequest message signature);
                  ESetIsAuthenticated (JBool true); EFetch profileRequest]
                 ++ (log ++ [ESetUserData data; ESetIsLoading false])).
  { apply newEvents_app. unfold after. rewrite Hrun. simpl.
    unfold verifiedTrace, signedTrace, started. flatten_trace. reflexivity. }
  assert (Hlog : requests (log ++ [ESetUserData data; ESetIsLoading false]) = []).
  { rewrite requests_app, Hreq. reflexivity. }
  simpl. unfold outcome. rewrite Hnew. unfold after. rewrite Hrun. simpl.
  split; [reflexivity|]. split; [reflexivity|]. split; [|split].
  - eexists. split; [reflexivity | exact Hlog].
  - unfold countRequests. simpl. rewrite Hlog. reflexivity.
  - intros F. rewrite (Hfail F). auto.
Qed.

(** C4 — when a step of the handshake fails (the nonce cannot be fetched,
    the message cannot be built, the wallet refuses to sign, the verify
    endpoint is unreachable or answers outside 2xx, or its body denies
    success), a session that was not authenticated is still not
    authenticated when the call ends; the call returns normally with a
    message in the error field and the loading flag down. *)
Theorem authenticate_failure_stays_signed_out :
  truthyAddress address = true ->
  isAuthenticated (store w) = JBool false ->
  authenticate_fails server createSiweMessage signMessageAsync address w ->
  let w' := after run w in
  outcome run w = Normal tt
  /\ isAuthenticated (store w') = JBool false
  /\ (exists msg, error (store w') = Some msg)
  /\ error (store w') <> None
  /\ isLoading (store w') = false.
Proof.
  intros Ha Hs F.
  destruct (authenticate_failure_run Ha F) as (msg & Ho & Hst).
  simpl. rewrite Ho, Hst. simpl.
  split; [reflexivity|]. split; [exact Hs|]. split; [eauto|].
  split; [discriminate | reflexivity].
Qed.

(** C10 — with no wallet address the precondition error reaches the caller
    and the world is exactly what it was: no setter has run, so the loading
    flag, the error field, [isAuthenticated] and [userData] keep their
    values.  A failure inside the handshake, by contrast, is caught: the
    call returns normally with the message in the error field. *)
Theorem authenticate_without_wallet_changes_nothing :
  (truthyAddress address = false ->
   outcome run w = Abrupt (Err "Wallet not connected")
   /\ after run w = w
   /\ isLoading (store (after run w)) = isLoading (store w)
   /\ error (store (after run w)) = error (store w)
   /\ isAuthenticated (store (after run w)) = isAuthenticated (store w)
   /\ userData (store (after run w)) = userData (store w))
  /\ (truthyAddress address = true ->
      authenticate_fails server createSiweMessage signMessageAsync address w ->
      outcome run w = Normal tt
      /\ exists msg, error (store (after run w)) = Some msg).
Proof.
  split.
  - intros Ha. subst run. unfold authenticate, outcome, after.
    rewrite Ha. simpl. repeat split; reflexivity.
  - intros Ha F. destruct (authenticate_failure_run Ha F) as (msg & Ho & Hst).
    split; [exact Ho|]. exists msg. rewrite Hst. reflexivity.
Qed.

End Authenticate.

Lemma alice_nonce (script : list FetchOutcome) :
  nonce_is (scripted (nonceOk :: script)) freshWorld (lit "abc123").
Proof. eexists. repeat split; reflexivity. Defined.

Lemma alice_message (script : list FetchOutcome) :
  message_is (scripted (nonceOk :: script)) siwe0 alice freshWorld message0.
Proof. exists (lit "abc123"). split; [apply alice_nonce | reflexivity]. Defined.

Lemma alice_signed (script : list FetchOutcome) :
  signed (scripted (nonceOk :: script)) siwe0 signer0 alice freshWorld
    message0 signature0.
Proof. split; [apply alice_message | reflexivity]. Defined.

Lemma authenticate_success_keeps_session_witness :
  let w' := after (authenticate acceptsThenProfileDown siwe0 signer0 alice)
                  freshWorld in
  isAuthenticated (store w') = JBool true
  /\ userData (store w') = JNull
  /\ error (store w') = None
  /\ countRequests isProfileGet (newEvents freshWorld w') = 1%nat.
Proof.
  assert (V : verify_accepts acceptsThenProfileDown siwe0 signer0 alice
                freshWorld message0 signature0).
  { split; [apply alice_signed|].
    eexists; eexists; eexists. repeat split; reflexivity. }
  assert (F : fetch_fails
                (acceptsThenProfileDown
                   (verifiedTrace freshWorld message0 signature0)
                   profileRequest)).
  { eapply fails_status; reflexivity. }
  destruct (authenticate_success_keeps_session acceptsThenProfileDown siwe0
              signer0 alice freshWorld message0 signature0 eq_refl V)
    as (_ & _ & _ & Hcount & Hfail).
  destruct (Hfail F) as (Hauth & Hdata & Herr).
  simpl. auto.
Defined.

Lemma authenticate_failure_stays_signed_out_witness :
  (let w' := after (authenticate offline siwe0 signer0 alice) freshWorld in
   isAuthenticated (store w') = JBool false /\ error (store w') <> None
   /\ isLoading (store w') = false)
  /\ (let w' := after (authenticate nonceOnly siwe0 refusingSigner alice)
                      freshWorld in
      isAuthenticated (store w') = JBool false /\ error (store w') <> None
      /\ isLoading (store w') = false)
  /\ (let w' := after (authenticate verifyUnauthorized siwe0 signer0 alice)
                      freshWorld in
      isAuthenticated (store w') = JBool false /\ error (store w') <> None
      /\ isLoading (store w') = false)
  /\ (let w' := after (authenticate verifyDenies siwe0 signer0 alice)
                      freshWorld in
      isAuthenticated (store w') = JBool false /\ error (store w') <> None
      /\ isLoading (store w') = false).
Proof.
  split; [|split; [|split]].
  - destruct (authenticate_failure_stays_signed_out offline siwe0 signer0
                alice freshWorld eq_refl eq_refl) as (_ & H1 & _ & H2 & H3).
    + eapply nonce_unreachable. reflexivity.
    + simpl. auto.
  - destruct (authenticate_failure_stays_signed_out nonceOnly siwe0
                refusingSigner alice freshWorld eq_refl eq_refl)
      as (_ & H1 & _ & H2 & H3).
    + eapply signing_refused; [apply alice_message | reflexivity].
    + simpl. auto.
  - destruct (authenticate_failure_stays_signed_out verifyUnauthorized siwe0
                signer0 alice freshWorld eq_refl eq_refl)
      as (_ & H1 & _ & H2 & H3).
    + eapply verify_refused; [apply alice_signed | reflexivity | reflexivity].
    + simpl. auto.
  - destruct (authenticate_failure_stays_signed_out verifyDenies siwe0
                signer0 alice freshWorld eq_refl eq_refl)
      as (_ & H1 & _ & H2 & H3).
    + eapply verify_denied;
        [apply alice_signed | reflexivity | reflexivity | reflexivity
        | reflexivity | reflexivity].
    + simpl. auto.
Defined.

Lemma authenticate_without_wallet_changes_nothing_witness :
  after (authenticate offline siwe0 signer0 None) signedInWorld = signedInWorld
  /\ outcome (authenticate offline siwe0 signer0 (Some [])) signedInWorld
       = Abrupt (Err "Wallet not connected")
  /\ outcome (authenticate offline siwe0 signer0 alice) signedInWorld
       = Normal tt.
Proof.
  split; [|split].
  - apply (proj1 (authenticate_without_wallet_changes_nothing offline siwe0
                    signer0 None signedInWorld)).
    reflexivity.
  - apply (proj1 (authenticate_without_wallet_changes_nothing offline siwe0
                    signer0 (Some []) signedInWorld)).
    reflexivity.
  - apply (proj2 (authenticate_without_wallet_changes_nothing offline siwe0
                    signer0 alice signedInWorld)).
    + reflexivity.
    + eapply nonce_unreachable. reflexivity.
Defined.

(** ** [checkAuthStatus] and the wallet effect *)

(** Every run of [checkAuthStatus]: it returns normally and its first call
    is the status request; nothing is written before the answer. *)
Lemma checkAuthStatus_effect server (w : World) :
  exists log,
    outcome (checkAuthStatus server) w = Normal tt
    /\ newEvents w (after (checkAuthStatus server) w)
       = EFetch statusRequest :: log.
Proof.
  unfold checkAuthStatus. unfold_ops. simpl.
  destruct (server (trace w) statusRequest) as [r|e]; simpl.
  - destruct (ok r); simpl.
    + destruct (json r) as [parsed|e]; simpl.
      * destruct (getProp parsed "authenticated") as [v|e]; simpl.
        -- destruct (truthy v); simpl.
           ++ match goal with
              | |- context [fetchUserData server ?W] =>
                  destruct (fetchUserData_effect server W)
                    as (data & log & Hrun & _)
              end.
              rewrite Hrun. simpl. eexists. split; [reflexivity|].
              apply newEvents_app. simpl. flatten_trace. reflexivity.
           ++ eexists. split; [reflexivity|].
              apply newEvents_app. simpl. flatten_trace. reflexivity.
        -- eexists. split; [reflexivity|].
           apply newEvents_app. simpl. flatten_trace. reflexivity.
      * eexists. split; [reflexivity|].
        apply newEvents_app. simpl. flatten_trace. reflexivity.
    + eexists. split; [reflexivity|].
      apply newEvents_app. simpl. flatten_trace. reflexivity.
  - eexists. split; [reflexivity|].
    apply newEvents_app. simpl. flatten_trace. reflexivity.
Qed.



(** C7, as the code has it — when the wallet is disconnected (the
    connection flag is down or there is no address), whatever the state
    was, the effect sets [isAuthenticated] to false and [userData] to null
    and makes no request.  When the address changes to another connected
    one, the effect resets nothing: it runs [checkAuthStatus], whose first
    call is the status request, and the state becomes what that check
    leaves. *)
Theorem walletEffect_resets_on_disconnect server (isConnected : bool)
    (address : option jsstring) (w : World) :
  let run := walletEffect server isConnected address in
  (isConnected && truthyAddress address = false ->
   outcome run w = Normal tt
   /\ isAuthenticated (store (after run w)) = JBool false
   /\ userData (store (after run w)) = JNull
   /\ newEvents w (after run w) =
        [ESetIsAuthenticated (JBool false); ESetUserData JNull])
  /\ (isConnected && truthyAddress address = true ->
      outcome run w = Normal tt
      /\ after run w = after (checkAuthStatus server) w
      /\ exists log, newEvents w (after run w) = EFetch statusRequest :: log).
Proof.
  simpl. unfold walletEffect. split; intros H; rewrite H.
  - unfold_ops. simpl. repeat split; try reflexivity.
    apply newEvents_app. simpl. flatten_trace. reflexivity.
  - destruct (checkAuthStatus_effect server w) as (log & _ & Hnew).
    unfold detached, outcome, after in *. simpl.
    split; [reflexivity|]. split; [reflexivity|]. exists log. exact Hnew.
Qed.

Lemma walletEffect_resets_on_disconnect_witness :
  isAuthenticated (store (after (walletEffect stillValid false None)
                                signedInWorld)) = JBool false
  /\ userData (store (after (walletEffect stillValid false alice)
                            signedInWorld)) = JNull
  /\ after (walletEffect stillValid true bob) signedInWorld
     = after (checkAuthStatus stillValid) signedInWorld.
Proof.
  split; [|split].
  - apply (proj1 (walletEffect_resets_on_disconnect stillValid false None
                    signedInWorld)).
    reflexivity.
  - apply (proj1 (walletEffect_resets_on_disconnect stillValid false alice
                    signedInWorld)).
    reflexivity.
  - apply (proj2 (walletEffect_resets_on_disconnect stillValid true bob
                    signedInWorld)).
    reflexivity.
Defined.

(** C7, as stated, fails — the wallet switches from one connected address
    to another while the cookie is still valid: the effect's first call is
    the status request, nothing is reset before it, and the run ends with
    [isAuthenticated] true and the user data in place. *)
Lemma walletEffect_address_change_keeps_session :
  let w' := after (walletEffect stillValid true bob) signedInWorld in
  newEvents signedInWorld w' =
    [EFetch statusRequest; ESetIsAuthenticated (JBool true);
     EFetch profileRequest; ESetUserData sampleUserData]
  /\ isAuthenticated (store w') = JBool true
  /\ userData (store w') = sampleUserData
  /\ ~ (isAuthenticated (store w') = JBool false /\ userData (store w') = JNull).
Proof.
  vm_compute. repeat (split; [reflexivity|]).
  intros [H _]. discriminate H.
Qed.

(** ** The profile mutations *)

(** C9 — [createOrUpdateProfile] and [deleteProfile] alike: on a 2xx answer
    the next call is the [GET /a/profile] of [fetchUserData], [userData]
    becomes what that request gave (its body, or [null] when it failed) and
    the operation returns normally; on an answer outside 2xx and on a
    rejected request the message goes to the error field and the same error
    is thrown to the caller.  In every case the loading flag ends down. *)
Theorem profile_mutations_refresh_or_raise server
    (profileData : PartialProfile) (w : World) :
  let save := createOrUpdateProfile server profileData in
  let drop := deleteProfile server in
  (forall r,
     server (started w) (profilePostRequest profileData) = FetchResolves r ->
     ok r = true ->
     outcome save w = Normal tt
     /\ error (store (after save w)) = None
     /\ isLoading (store (after save w)) = false
     /\ (exists log,
           newEvents w (after save w) =
             [ESetIsLoading true; ESetError None;
              EFetch (profilePostRequest profileData); EFetch profileRequest]
             ++ log
           /\ requests log = [])
     /\ refreshes_user_data server w (after save w)
          (profilePostRequest profileData))
  /\ (forall r,
        server (started w) (profilePostRequest profileData) = FetchResolves r ->
        ok r = false ->
        outcome save w = Abrupt (Err "Failed to update profile")
        /\ error (store (after save w)) = Some (lit "Failed to update profile")
        /\ isLoading (store (after save w)) = false
        /\ requests (newEvents w (after save w))
           = [profilePostRequest profileData])
  /\ (forall e,
        server (started w) (profilePostRequest profileData) = FetchRejects e ->
        outcome save w = Abrupt e
        /\ error (store (after save w))
           = Some (messageOr e "Profile update failed")
        /\ isLoading (store (after save w)) = false
        /\ requests (newEvents w (after save w))
           = [profilePostRequest profileData])
  /\ (forall r,
        server (started w) profileDeleteRequest = FetchResolves r ->
        ok r = true ->
        outcome drop w = Normal tt
        /\ error (store (after drop w)) = None
        /\ isLoading (store (after drop w)) = false
        /\ (exists log,
              newEvents w (after drop w) =
                [ESetIsLoading true; ESetError None;
                 EFetch profileDeleteRequest; EFetch profileRequest] ++ log
              /\ requests log = [])
        /\ refreshes_user_data server w (after drop w) profileDeleteRequest)
  /\ (forall r,
        server (started w) profileDeleteRequest = FetchResolves r ->
        ok r = false ->
        outcome drop w = Abrupt (Err "Failed to delete profile")
        /\ error (store (after drop w)) = Some (lit "Failed to delete profile")
        /\ isLoading (store (after drop w)) = false
        /\ requests (newEvents w (after drop w)) = [profileDeleteRequest])
  /\ (forall e,
        server (started w) profileDeleteRequest = FetchRejects e ->
        outcome drop w = Abrupt e
        /\ error (store (after drop w))
           = Some (messageOr e "Profile deletion failed")
        /\ isLoading (store (after drop w)) = false
        /\ requests (newEvents w (after drop w)) = [profileDeleteRequest]).
Proof.
  simpl. unfold refreshes_user_data, createOrUpdateProfile, deleteProfile,
    started.
  repeat match goal with |- _ /\ _ => split end.
  all: intros; unfold_ops; simpl; flatten_trace; use_facts.
  all: try (split; [reflexivity|]; split; [reflexivity|];
            split; [reflexivity|];
            erewrite newEvents_app by (simpl; flatten_trace; reflexivity);
            reflexivity).
  all: match goal with
       | |- context [fetchUserData ?srv ?W] =>
           destruct (fetchUserData_effect srv W)
             as (data & log & Hrun & Hreq & Hfail & Hdata)
       end;
       rewrite Hrun; simpl in *;
       split; [reflexivity|]; split; [reflexivity|]; split; [reflexivity|];
       split;
       [ exists (log ++ [ESetUserData data; ESetIsLoading false]);
         split;
         [ apply newEvents_app; simpl; flatten_trace; reflexivity
         | rewrite requests_app, Hreq; reflexivity ]
       | split;
         [ exists data, log;
           split;
           [ apply newEvents_app; simpl; flatten_trace; reflexivity
           | split; [exact Hreq | reflexivity] ]
         | split;
           [ intros r' d Hr' Hok' Hj'; apply (Hdata r' d Hr' Hok' Hj')
           | intros F; apply (Hfail F) ] ] ].
Qed.

Lemma profile_mutations_refresh_or_raise_witness :
  let nameOnly := mkPartial (Some (lit "Alice")) None None None None in
  outcome (createOrUpdateProfile savesProfile nameOnly) signedInWorld = Normal tt
  /\ outcome (createOrUpdateProfile serverError nameOnly) signedInWorld
     = Abrupt (Err "Failed to update profile")
  /\ outcome (createOrUpdateProfile offline nameOnly) signedInWorld
     = Abrupt (Err "Failed to fetch")
  /\ outcome (deleteProfile savesProfile) signedInWorld = Normal tt
  /\ error (store (after (deleteProfile serverError) signedInWorld))
     = Some (lit "Failed to delete profile")
  /\ outcome (deleteProfile offline) signedInWorld
     = Abrupt (Err "Failed to fetch")
  /\ userData (store (after (createOrUpdateProfile savesProfile nameOnly)
                            freshWorld)) = sampleUserData
  /\ userData (store (after (deleteProfile savesProfile) freshWorld))
     = sampleUserData
  /\ userData (store (after (createOrUpdateProfile savesThenDown nameOnly)
                            signedInWorld)) = JNull
  /\ userData (store (after (deleteProfile savesThenDown) signedInWorld))
     = JNull.
Proof.
  intros nameOnly.
  pose proof (profile_mutations_refresh_or_raise savesProfile nameOnly
                signedInWorld) as (S1 & _ & _ & S4 & _ & _).
  pose proof (profile_mutations_refresh_or_raise serverError nameOnly
                signedInWorld) as (_ & E2 & _ & _ & E5 & _).
  pose proof (profile_mutations_refresh_or_raise offline nameOnly
                signedInWorld) as (_ & _ & O3 & _ & _ & O6).
  pose proof (profile_mutations_refresh_or_raise savesProfile nameOnly
                freshWorld) as (R1 & _ & _ & R4 & _ & _).
  pose proof (profile_mutations_refresh_or_raise savesThenDown nameOnly
                signedInWorld) as (D1 & _ & _ & D4 & _ & _).
  split; [eapply S1; reflexivity|].
  split; [eapply E2; reflexivity|].
  split; [eapply (O3 (Err "Failed to fetch")); reflexivity|].
  split; [eapply S4; reflexivity|].
  split; [eapply E5; reflexivity|].
  split; [eapply (O6 (Err "Failed to fetch")); reflexivity|].
  split.
  { destruct (R1 _ eq_refl eq_refl) as (_ & _ & _ & _ & _ & Hd & _).
    eapply Hd; reflexivity. }
  split.
  { destruct (R4 _ eq_refl eq_refl) as (_ & _ & _ & _ & _ & Hd & _).
    eapply Hd; reflexivity. }
  split.
  { destruct (D1 _ eq_refl eq_refl) as (_ & _ & _ & _ & _ & _ & Hf).
    apply Hf. eapply fails_status; reflexivity. }
  destruct (D4 _ eq_refl eq_refl) as (_ & _ & _ & _ & _ & _ & Hf).
  apply Hf. eapply fails_status; reflexivity.
Defined.

(** ** The regular expressions *)

Lemma matches_nil_nullable r : matches r [] -> nullable r = true.
Proof.
  intros H. remember [] as s eqn:Hs.
  induction H; simpl; try reflexivity; try discriminate.
  - apply app_eq_nil in Hs. destruct Hs as [-> ->].
    rewrite IHmatches1, IHmatches2; reflexivity.
  - rewrite IHmatches by assumption. reflexivity.
  - rewrite IHmatches by assumption. apply orb_true_r.
Qed.

Lemma nullable_matches_nil r : nullable r = true -> matches r [].
Proof.
  induction r; simpl; intros H; try discriminate.
  - constructor.
  - apply andb_true_iff in H. destruct H as [H1 H2].
    apply (MCat r1 r2 [] []); auto.
  - apply orb_true_iff in H. destruct H as [H|H].
    + apply MAltL; auto.
    + apply MAltR; auto.
  - constructor.
Qed.

Lemma deriv_sound c r : forall s, matches (deriv c r) s -> matches r (c :: s).
Proof.
  induction r; simpl; intros s H.
  - inversion H.
  - inversion H.
  - destruct (p c) eqn:Hp; inversion H; subst. constructor. exact Hp.
  - destruct (nullable r1) eqn:Hn.
    + inversion H; subst.
      * match goal with
        | H1 : matches (Cat _ _) _ |- _ => inversion H1; subst
        end.
        apply (MCat r1 r2 (c :: _) _); auto.
      * apply (MCat r1 r2 [] (c :: s)); auto.
        apply nullable_matches_nil. exact Hn.
    + inversion H; subst. apply (MCat r1 r2 (c :: _) _); auto.
  - inversion H; subst.
    + apply MAltL; auto.
    + apply MAltR; auto.
  - inversion H; subst. apply (MStarCons r (c :: _) _); auto.
Qed.

Lemma deriv_complete c r s : matches r (c :: s) -> matches (deriv c r) s.
Proof.
  intros H. remember (c :: s) as cs eqn:Hcs. revert c s Hcs.
  induction H; intros c' s' Hcs; simpl; try discriminate.
  - injection Hcs as -> <-. rewrite H. constructor.
  - destruct s1 as [|x s1]; simpl in Hcs.
    + subst s2. rewrite (matches_nil_nullable _ H).
      apply MAltR. apply IHmatches2. reflexivity.
    + injection Hcs as -> <-.
      destruct (nullable r1).
      * apply MAltL. apply MCat; auto.
      * apply MCat; auto.
  - apply MAltL. auto.
  - apply MAltR. auto.
  - destruct s1 as [|x s1]; simpl in Hcs.
    + apply IHmatches2. exact Hcs.
    + injection Hcs as -> <-. apply MCat; auto.
Qed.

(** [test] decides the language of the pattern. *)
Lemma test_matches (s : jsstring) : forall r, test r s = true <-> matches r s.
Proof.
  induction s as [|c s IH]; intros r; simpl.
  - split; [apply nullable_matches_nil | apply matches_nil_nullable].
  - rewrite IH. split; [apply deriv_sound | apply deriv_complete].
Qed.

Lemma matches_star_class p s :
  matches (Star (Class p)) s <-> forallb p s = true.
Proof.
  split.
  - intros H. remember (Star (Class p)) as r eqn:Hr.
    induction H; try discriminate; [reflexivity|].
    injection Hr as ->. inversion H; subst. simpl.
    rewrite IHmatches2 by reflexivity.
    match goal with Hp : p _ = true |- _ => rewrite Hp end. reflexivity.
  - induction s as [|c s IH]; simpl; intros H; [constructor|].
    apply andb_true_iff in H. destruct H as [Hc Hs].
    apply (MStarCons (Class p) [c] s); [constructor; exact Hc | auto].
Qed.

Lemma matches_plus_class p s :
  matches (Plus (Class p)) s <-> s <> [] /\ forallb p s = true.
Proof.
  unfold Plus. split.
  - intros H. inversion H; subst.
    match goal with H1 : matches (Class _) _ |- _ => inversion H1; subst end.
    split; [discriminate|]. simpl.
    match goal with Hp : p _ = true |- _ => rewrite Hp end.
    apply matches_star_class. assumption.
  - intros [Hne H]. destruct s as [|c s]; [congruence|].
    simpl in H. apply andb_true_iff in H. destruct H as [Hc Hs].
    apply (MCat (Class p) _ [c] s); [constructor; exact Hc|].
    apply matches_star_class. exact Hs.
Qed.

Lemma matches_chr a s : matches (chr a) s <-> s = [code a].
Proof.
  unfold chr. split.
  - intros H. inversion H; subst.
    match goal with Hp : (_ =? _) = true |- _ => apply N.eqb_eq in Hp; subst end.
    reflexivity.
  - intros ->. constructor. apply N.eqb_refl.
Qed.

(** X17 — the email pattern accepts exactly [a@b.c] with three such parts:
    one [@], a dot somewhere after it, nothing empty and no white space. *)
Lemma emailPattern_shape (s : jsstring) :
  test emailPattern s = true <->
  exists a b c, s = a ++ code "@" :: b ++ code "." :: c
                /\ emailPart a /\ emailPart b /\ emailPart c.
Proof.
  rewrite test_matches. unfold emailPattern, notSpaceNorAt. split.
  - intros H.
    inversion H as [| |? ? a r1 Ha H1| | | |]; subst.
    inversion H1 as [| |? ? at1 r2 Hat H2| | | |]; subst.
    inversion H2 as [| |? ? b r3 Hb H3| | | |]; subst.
    inversion H3 as [| |? ? dot1 c Hdot Hc| | | |]; subst.
    apply matches_chr in Hat, Hdot. subst.
    apply matches_plus_class in Ha, Hb, Hc.
    exists a, b, c. simpl. auto.
  - intros (a & b & c & -> & Ha & Hb & Hc).
    apply MCat; [apply matches_plus_class; exact Ha|].
    apply (MCat _ _ [code "@"]); [apply matches_chr; reflexivity|].
    apply MCat; [apply matches_plus_class; exact Hb|].
    apply (MCat _ _ [code "."]); [apply matches_chr; reflexivity|].
    apply matches_plus_class; exact Hc.
Qed.

Example trim_strips_both_ends : trim (lit "  a b  ") = lit "a b".
Proof. reflexivity. Qed.

Example trim_of_spaces_is_empty : trim (lit "   ") = [].
Proof. reflexivity. Qed.

Example email_accepted :
  test emailPattern (lit "a@b.co") = true
  /\ test emailPattern (lit "first.last@mail.example.org") = true.
Proof. split; reflexivity. Qed.

Example email_rejected :
  test emailPattern (lit "not-an-email") = false
  /\ test emailPattern (lit "a@b") = false
  /\ test emailPattern (lit "a@b@c.d") = false
  /\ test emailPattern (lit "a b@c.d") = false
  /\ test emailPattern (lit "a@.d") = false.
Proof. repeat split; reflexivity. Qed.

Example avatar_accepted :
  test avatarPattern (lit "https://example.org/me.png") = true
  /\ test avatarPattern (lit "HTTP://x.org/a.JPeG") = true.
Proof. split; reflexivity. Qed.

Example avatar_rejected :
  test avatarPattern (lit "ftp://example.org/me.png") = false
  /\ test avatarPattern (lit "https://.png") = false
  /\ test avatarPattern (lit "https://example.org/me.bmp") = false.
Proof. repeat split; reflexivity. Qed.

(** ** The profile form *)

(** C2, as the code has it — the validation is in the form handler, not in
    [createOrUpdateProfile].  When every field of the form is empty after
    trimming, and when the trimmed email is not empty and does not match the
    email pattern, [handleFormSubmit] shows an alert and returns: it calls
    nothing else, so no request is made and the session state and the form
    are as they were.  [createOrUpdateProfile] posts whatever it is given. *)
Theorem handleFormSubmit_rejects_invalid server (w : World) :
  let f := profileForm (view w) in
  let w' := after (handleFormSubmit server) w in
  (blank (name f) && blank (email f) && blank (avatar f) = true ->
   outcome (handleFormSubmit server) w = Normal tt
   /\ newEvents w w' =
        [EPreventDefault; EAlert (lit "Please fill in at least one field")]
   /\ requests (trace w') = requests (trace w)
   /\ store w' = store w /\ view w' = view w)
  /\ (blank (email f) = false ->
      test emailPattern (trim (email f)) = false ->
      outcome (handleFormSubmit server) w = Normal tt
      /\ newEvents w w' =
           [EPreventDefault; EAlert (lit "Please enter a valid email address")]
      /\ requests (trace w') = requests (trace w)
      /\ store w' = store w /\ view w' = view w)
  /\ (forall profileData,
        exists log,
          newEvents w (after (createOrUpdateProfile server profileData) w) =
            [ESetIsLoading true; ESetError None;
             EFetch (profilePostRequest profileData)] ++ log).
Proof.
  simpl. split; [|split].
  - intros Hb. unfold handleFormSubmit. unfold_ops. simpl. rewrite Hb. simpl.
    split; [reflexivity|]. split.
    + apply newEvents_app. flatten_trace. reflexivity.
    + split; [|split; reflexivity].
      rewrite <- app_assoc, requests_app. simpl. apply app_nil_r.
  - intros Hb Ht. unfold handleFormSubmit. unfold_ops. simpl.
    rewrite Hb, andb_false_r. simpl.
    unfold blank in Hb. apply negb_false_iff in Hb. rewrite Hb, Ht. simpl.
    split; [reflexivity|]. split.
    + apply newEvents_app. flatten_trace. reflexivity.
    + split; [|split; reflexivity].
      rewrite <- app_assoc, requests_app. simpl. apply app_nil_r.
  - intros profileData. unfold createOrUpdateProfile. unfold_ops. simpl.
    flatten_trace.
    destruct (server (trace w ++ [ESetIsLoading true; ESetError None])
                (profilePostRequest profileData)) as [r|e]; simpl.
    + destruct (ok r); simpl.
      * match goal with
        | |- context [fetchUserData server ?W] =>
            destruct (fetchUserData_effect server W) as (data & log & Hrun & _)
        end.
        rewrite Hrun. simpl. eexists.
        apply newEvents_app. flatten_trace. reflexivity.
      * eexists. apply newEvents_app. flatten_trace. reflexivity.
    + eexists. apply newEvents_app. flatten_trace. reflexivity.
Qed.

Lemma handleFormSubmit_rejects_invalid_witness :
  newEvents (formWorld blankForm)
            (after (handleFormSubmit savesProfile) (formWorld blankForm))
    = [EPreventDefault; EAlert (lit "Please fill in at least one field")]
  /\ newEvents (formWorld badEmailForm)
               (after (handleFormSubmit savesProfile) (formWorld badEmailForm))
     = [EPreventDefault; EAlert (lit "Please enter a valid email address")]
  /\ requests (trace (after (handleFormSubmit savesProfile)
                            (formWorld badEmailForm))) = [].
Proof.
  pose proof (handleFormSubmit_rejects_invalid savesProfile
                (formWorld blankForm)) as (B & _ & _).
  pose proof (handleFormSubmit_rejects_invalid savesProfile
                (formWorld badEmailForm)) as (_ & E & _).
  split; [apply B; reflexivity|].
  split; [apply E; reflexivity|].
  apply (proj1 (proj2 (proj2 (E eq_refl eq_refl)))).
Defined.

(** C2, as stated, fails — [createOrUpdateProfile] given [{}], and given
    [{email: "not-an-email"}] (which the email pattern rejects), posts it to
    the profile endpoint and returns normally. *)
Lemma createOrUpdateProfile_posts_unvalidated :
  test emailPattern (lit "not-an-email") = false
  /\ outcome (createOrUpdateProfile savesProfile emptyProfile) signedInWorld
     = Normal tt
  /\ requests (trace (after (createOrUpdateProfile savesProfile emptyProfile)
                            signedInWorld))
     = [profilePostRequest emptyProfile; profileRequest]
  /\ outcome (createOrUpdateProfile savesProfile badEmailProfile) signedInWorld
     = Normal tt
  /\ requests (trace (after (createOrUpdateProfile savesProfile badEmailProfile)
                            signedInWorld))
     = [profilePostRequest badEmailProfile; profileRequest].
Proof. vm_compute. repeat split; reflexivity. Qed.

(** * Further properties *)

(** ** Every run of the write operations *)

(** With a wallet, [authenticate] never throws: whatever happens inside the
    handshake it returns normally with the loading flag down. *)
Lemma authenticate_with_wallet_returns server createSiweMessage
    signMessageAsync (address : option jsstring) (w : World) :
  truthyAddress address = true ->
  let run := authenticate server createSiweMessage signMessageAsync address in
  outcome run w = Normal tt /\ isLoading (store (after run w)) = false.
Proof.
  intros Ha. simpl.
  destruct (authenticate_fails_or_accepts server createSiweMessage
              signMessageAsync address w) as [F | (m & s & V)].
  - destruct (authenticate_failure_run server createSiweMessage
                signMessageAsync address w Ha F) as (msg & Ho & Hs).
    rewrite Ho, Hs. split; reflexivity.
  - destruct (authenticate_success_run server createSiweMessage
                signMessageAsync address w m s Ha V) as (d & l & Hr & _).
    unfold outcome, after. rewrite Hr. split; reflexivity.
Qed.

(** X1 — the loading flag never stays up: [authenticate] with a wallet,
    [logout], [createOrUpdateProfile] and [deleteProfile] all end with
    [isLoading] false, whatever the server, the wallet and the SIWE library
    do and whether the operation returns or throws. *)
Theorem loading_flag_always_lowered server createSiweMessage signMessageAsync
    (address : option jsstring) (profileData : PartialProfile) (w : World) :
  (truthyAddress address = true ->
   isLoading (store (after (authenticate server createSiweMessage
                              signMessageAsync address) w)) = false)
  /\ isLoading (store (after (logout server) w)) = false
  /\ isLoading (store (after (createOrUpdateProfile server profileData) w))
     = false
  /\ isLoading (store (after (deleteProfile server) w)) = false.
Proof.
  split; [|split; [|split]].
  - intros Ha.
    apply (authenticate_with_wallet_returns server createSiweMessage
             signMessageAsync address w Ha).
  - unfold logout. unfold_ops. simpl.
    destruct (server _ logoutRequest); reflexivity.
  - unfold createOrUpdateProfile. unfold_ops. simpl.
    destruct (server _ (profilePostRequest profileData)) as [r|e]; simpl;
      [|reflexivity].
    destruct (ok r); simpl; [|reflexivity].
    match goal with
    | |- context [fetchUserData server ?W] =>
        destruct (fetchUserData_effect server W) as (d & l & Hrun & _)
    end.
    rewrite Hrun. reflexivity.
  - unfold deleteProfile. unfold_ops. simpl.
    destruct (server _ profileDeleteRequest) as [r|e]; simpl; [|reflexivity].
    destruct (ok r); simpl; [|reflexivity].
    match goal with
    | |- context [fetchUserData server ?W] =>
        destruct (fetchUserData_effect server W) as (d & l & Hrun & _)
    end.
    rewrite Hrun. reflexivity.
Qed.

Lemma loading_flag_always_lowered_witness :
  isLoading (store (after (authenticate verifyDenies siwe0 signer0 alice)
                          freshWorld)) = false.
Proof.
  apply (proj1 (loading_flag_always_lowered verifyDenies siwe0 signer0 alice
                  emptyProfile freshWorld)).
  reflexivity.
Defined.

(** ** The click handlers *)

(** X2 — [handleAuthenticate] never throws.  Without a wallet address it
    only logs the precondition error to the console: no request is made and
    no state cell changes, so the error field shows nothing.  With a wallet
    its catch block is never reached: it does what [authenticate] does. *)
Theorem handleAuthenticate_swallows_precondition server createSiweMessage
    signMessageAsync (address : option jsstring) (w : World) :
  let handle :=
    handleAuthenticate server createSiweMessage signMessageAsync address in
  outcome handle w = Normal tt
  /\ (truthyAddress address = false ->
      newEvents w (after handle w) =
        [EConsoleError (lit "Authentication failed:")
           (Some (Err "Wallet not connected"))]
      /\ store (after handle w) = store w
      /\ view (after handle w) = view w)
  /\ (truthyAddress address = true ->
      handle w =
        authenticate server createSiweMessage signMessageAsync address w).
Proof.
  simpl. unfold handleAuthenticate.
  destruct (truthyAddress address) eqn:Ha.
  - destruct (authenticate_with_wallet_returns server createSiweMessage
                signMessageAsync address w Ha) as (Ho & _).
    unfold outcome, tryCatch in *.
    destruct (authenticate server createSiweMessage signMessageAsync address w)
      as [c w'] eqn:Hrun.
    simpl in Ho. subst c. simpl.
    split; [reflexivity|]. split; [discriminate | reflexivity].
  - unfold authenticate. rewrite Ha. unfold_ops. simpl.
    split; [reflexivity|]. split; [|discriminate].
    intros _. split; [|split; reflexivity].
    apply newEvents_app. reflexivity.
Qed.

Lemma handleAuthenticate_swallows_precondition_witness :
  store (after (handleAuthenticate offline siwe0 signer0 None) freshWorld)
    = freshStore
  /\ handleAuthenticate offline siwe0 signer0 alice freshWorld
     = authenticate offline siwe0 signer0 alice freshWorld.
Proof.
  split.
  - apply (proj1 (proj2 (handleAuthenticate_swallows_precondition offline
                           siwe0 signer0 None freshWorld))).
    reflexivity.
  - apply (proj2 (proj2 (handleAuthenticate_swallows_precondition offline
                           siwe0 signer0 alice freshWorld))).
    reflexivity.
Defined.

(** X3 — the catch blocks of [handleLogout] and [handleRetryFetchData] are
    dead code: [logout] and [fetchUserData] never throw, so the handlers do
    exactly what those do and never log ['Logout failed:'] or
    ['Retry fetch failed:']. *)
Theorem handleLogout_and_retry_never_catch server (w : World) :
  handleLogout server w = logout server w
  /\ handleRetryFetchData server w = fetchUserData server w
  /\ outcome (handleLogout server) w = Normal tt
  /\ outcome (handleRetryFetchData server) w = Normal tt.
Proof.
  assert (L : outcome (logout server) w = Normal tt).
  { unfold logout. unfold_ops. simpl.
    destruct (server _ logoutRequest); reflexivity. }
  assert (F : outcome (fetchUserData server) w = Normal tt).
  { destruct (fetchUserData_effect server w) as (d & l & Hrun & _).
    unfold outcome. rewrite Hrun. reflexivity. }
  unfold handleLogout, handleRetryFetchData, outcome, tryCatch in *.
  destruct (logout server w) as [c1 w1]. destruct (fetchUserData server w)
    as [c2 w2].
  simpl in L, F. subst c1 c2. simpl. repeat split; reflexivity.
Qed.

(** X4 — [handleDeleteProfile] never throws.  When the user declines the
    confirmation nothing happens at all.  When the user confirms and the
    delete request does not come back 2xx, the error raised by
    [deleteProfile] is caught and logged: the error field carries the
    message, and the user data and the authentication flag are untouched. *)
Theorem handleDeleteProfile_confirms_and_swallows server
    (confirm : jsstring -> bool) (w : World) :
  let handle := handleDeleteProfile server confirm in
  let question :=
    lit "Are you sure you want to delete your profile? This action cannot be undone." in
  outcome handle w = Normal tt
  /\ (confirm question = false -> after handle w = w)
  /\ (confirm question = true ->
      request_fails (server (started w) profileDeleteRequest) ->
      exists err,
        newEvents w (after handle w) =
          [ESetIsLoading true; ESetError None; EFetch profileDeleteRequest;
           ESetError (Some (messageOr err "Profile deletion failed"));
           ESetIsLoading false;
           EConsoleError (lit "Profile deletion failed:") (Some err)]
        /\ error (store (after handle w))
           = Some (messageOr err "Profile deletion failed")
        /\ userData (store (after handle w)) = userData (store w)
        /\ isAuthenticated (store (after handle w))
           = isAuthenticated (store w)).
Proof.
  simpl. unfold handleDeleteProfile.
  destruct (confirm _) eqn:Hc.
  - unfold deleteProfile, started. unfold_ops. simpl. flatten_trace.
    split; [|split; [discriminate|]].
    + destruct (server _ profileDeleteRequest) as [r|e]; simpl;
        [|reflexivity].
      destruct (ok r); simpl; [|reflexivity].
      match goal with
      | |- context [fetchUserData server ?W] =>
          destruct (fetchUserData_effect server W) as (d & l & Hrun & _)
      end.
      rewrite Hrun. reflexivity.
    + intros _ F. destruct F as [e He | r Hr Hok]; use_facts.
      * exists e. split; [|repeat split; reflexivity].
        apply newEvents_app. simpl. flatten_trace. reflexivity.
      * exists (Err "Failed to delete profile").
        split; [|repeat split; reflexivity].
        apply newEvents_app. simpl. flatten_trace. reflexivity.
  - unfold_ops. simpl. split; [reflexivity|]. split; [|discriminate].
    intros _. destruct w; reflexivity.
Qed.

Lemma handleDeleteProfile_confirms_and_swallows_witness :
  after (handleDeleteProfile serverError decline) signedInWorld = signedInWorld
  /\ exists err,
       error (store (after (handleDeleteProfile serverError agree)
                           signedInWorld))
       = Some (messageOr err "Profile deletion failed").
Proof.
  split.
  - apply (proj1 (proj2 (handleDeleteProfile_confirms_and_swallows serverError
                           decline signedInWorld))).
    reflexivity.
  - destruct (proj2 (proj2 (handleDeleteProfile_confirms_and_swallows
                              serverError agree signedInWorld)) eq_refl)
      as (err & _ & He & _).
    + eapply request_refused; reflexivity.
    + exists err. exact He.
Defined.

(** ** More on the read path *)

(** X5 — [checkAuthStatus] and [fetchUserData] are silent: whatever the
    server does, neither touches the loading flag, the error field or the
    form, and [fetchUserData] leaves [isAuthenticated] alone too. *)
Theorem read_path_never_reports server (w : World) :
  let checked := after (checkAuthStatus server) w in
  let fetched := after (fetchUserData server) w in
  isLoading (store checked) = isLoading (store w)
  /\ error (store checked) = error (store w)
  /\ view checked = view w
  /\ isLoading (store fetched) = isLoading (store w)
  /\ error (store fetched) = error (store w)
  /\ isAuthenticated (store fetched) = isAuthenticated (store w)
  /\ view fetched = view w.
Proof.
  simpl.
  assert (C : isLoading (store (after (checkAuthStatus server) w))
              = isLoading (store w)
              /\ error (store (after (checkAuthStatus server) w))
                 = error (store w)
              /\ view (after (checkAuthStatus server) w) = view w).
  { unfold checkAuthStatus. unfold_ops. simpl.
    destruct (server (trace w) statusRequest) as [r|e]; simpl;
      [|repeat split; reflexivity].
    destruct (ok r); simpl; [|repeat split; reflexivity].
    destruct (json r) as [parsed|e]; simpl; [|repeat split; reflexivity].
    destruct (getProp parsed "authenticated") as [v|e]; simpl;
      [|repeat split; reflexivity].
    destruct (truthy v); simpl; [|repeat split; reflexivity].
    match goal with
    | |- context [fetchUserData server ?W] =>
        destruct (fetchUserData_effect server W) as (d & l & Hrun & _)
    end.
    rewrite Hrun. simpl. repeat split; reflexivity. }
  destruct C as (C1 & C2 & C3).
  destruct (fetchUserData_effect server w) as (d & l & Hrun & _).
  unfold after at 4 5 6 7. rewrite Hrun. simpl.
  repeat split; assumption || reflexivity.
Qed.

(** X6 — a 2xx status answer is stored as it comes.  When the
    [authenticated] property of the body is falsy, [checkAuthStatus] stores
    that very value (so [undefined], not [false], when the key is missing),
    makes no profile request, and leaves the user data that was there. *)
Theorem checkAuthStatus_keeps_stale_user_data server (w : World) r parsed v :
  server (trace w) statusRequest = FetchResolves r ->
  ok r = true ->
  json r = Normal parsed ->
  getProp parsed "authenticated" = Normal v ->
  truthy v = false ->
  let w' := after (checkAuthStatus server) w in
  isAuthenticated (store w') = v
  /\ userData (store w') = userData (store w)
  /\ newEvents w w' = [EFetch statusRequest; ESetIsAuthenticated v].
Proof.
  intros Hr Hok Hj Hg Hv. simpl.
  unfold checkAuthStatus. unfold_ops. simpl. use_facts.
  split; [reflexivity|]. split; [reflexivity|].
  apply newEvents_app. simpl. flatten_trace. reflexivity.
Qed.

Lemma checkAuthStatus_keeps_stale_user_data_witness :
  let w' := after (checkAuthStatus emptyBody) signedInWorld in
  isAuthenticated (store w') = JUndefined
  /\ userData (store w') = sampleUserData.
Proof.
  destruct (checkAuthStatus_keeps_stale_user_data emptyBody signedInWorld
              (mkResponse 200 (Normal (lit "")) (Normal (JObj [])))
              (JObj []) JUndefined eq_refl eq_refl eq_refl eq_refl eq_refl)
    as (H1 & H2 & _).
  split; [exact H1 | exact H2].
Defined.

(** X7 — a 2xx status answer that cannot be read fails closed: when the
    body does not parse, or parses to [null] (so that reading
    [authenticated] off it throws), [checkAuthStatus] logs the error and
    sets [isAuthenticated] to false and [userData] to null. *)
Theorem checkAuthStatus_unreadable_body_fails_closed server (w : World) r :
  server (trace w) statusRequest = FetchResolves r ->
  ok r = true ->
  (exists e, json r = Abrupt e) \/ json r = Normal JNull ->
  let w' := after (checkAuthStatus server) w in
  outcome (checkAuthStatus server) w = Normal tt
  /\ isAuthenticated (store w') = JBool false
  /\ userData (store w') = JNull
  /\ exists err,
       newEvents w w' =
         [EFetch statusRequest;
          EConsoleError (lit "Failed to check auth status:") (Some err);
          ESetIsAuthenticated (JBool false); ESetUserData JNull].
Proof.
  intros Hr Hok Hj. simpl.
  unfold checkAuthStatus. unfold_ops. simpl. use_facts.
  destruct Hj as [(e & Hj) | Hj]; rewrite Hj; simpl.
  - repeat (split; [reflexivity|]). exists e.
    apply newEvents_app. simpl. flatten_trace. reflexivity.
  - repeat (split; [reflexivity|]). eexists.
    apply newEvents_app. simpl. flatten_trace. reflexivity.
Qed.

Lemma checkAuthStatus_unreadable_body_fails_closed_witness :
  isAuthenticated (store (after (checkAuthStatus nullBody) signedInWorld))
    = JBool false
  /\ userData (store (after (checkAuthStatus nullBody) signedInWorld)) = JNull.
Proof.
  destruct (checkAuthStatus_unreadable_body_fails_closed nullBody
              signedInWorld (mkResponse 200 (Normal (lit "")) (Normal JNull))
              eq_refl eq_refl (or_intror eq_refl))
    as (_ & H1 & H2 & _).
  split; [exact H1 | exact H2].
Defined.

(** X8 — [fetchUserData] has no cache: called twice in a row against a
    server that gives the second request the answer it gave the first, it
    makes two requests and ends with the user data the first call had
    produced. *)
Theorem fetchUserData_twice server (w : World) :
  let w1 := after (fetchUserData server) w in
  let w2 := after (fetchUserData server) w1 in
  server (trace w1) profileRequest = server (trace w) profileRequest ->
  userData (store w2) = userData (store w1)
  /\ requests (newEvents w w2) = [profileRequest; profileRequest].
Proof.
  simpl. unfold after.
  destruct (fetchUserData_effect server w)
    as (d1 & l1 & Hrun1 & Hreq1 & Hfail1 & Hok1).
  rewrite Hrun1. simpl.
  match goal with
  | |- context [fetchUserData server ?W] =>
      destruct (fetchUserData_effect server W)
        as (d2 & l2 & Hrun2 & Hreq2 & Hfail2 & Hok2); set (W1 := W) in *
  end.
  rewrite Hrun2. simpl. intros Hsame. simpl in Hfail2, Hok2.
  rewrite Hsame in Hfail2, Hok2. split.
  - destruct (server (trace w) profileRequest) as [r|e] eqn:Ho.
    + destruct (ok r) eqn:Hr.
      * destruct (json r) as [d|e] eqn:Hj.
        -- destruct (Hok1 r d eq_refl Hr Hj) as [-> _].
           destruct (Hok2 r d eq_refl Hr Hj) as [-> _]. reflexivity.
        -- assert (F : fetch_fails (FetchResolves r))
             by (eapply fails_body; eauto).
           destruct (Hfail1 F) as [-> _]. destruct (Hfail2 F) as [-> _].
           reflexivity.
      * assert (F : fetch_fails (FetchResolves r))
          by (eapply fails_status; eauto).
        destruct (Hfail1 F) as [-> _]. destruct (Hfail2 F) as [-> _].
        reflexivity.
    + assert (F : fetch_fails (FetchRejects e))
        by (eapply fails_unreachable; eauto).
      destruct (Hfail1 F) as [-> _]. destruct (Hfail2 F) as [-> _].
      reflexivity.
  - erewrite newEvents_app
      by (subst W1; simpl; rewrite <- app_assoc; simpl; reflexivity).
    simpl. rewrite !requests_app. simpl. rewrite !requests_app.
    rewrite Hreq1, Hreq2. reflexivity.
Qed.

Lemma fetchUserData_twice_witness :
  let w1 := after (fetchUserData sameTwice) freshWorld in
  let w2 := after (fetchUserData sameTwice) w1 in
  userData (store w2) = userData (store w1)
  /\ requests (newEvents freshWorld w2) = [profileRequest; profileRequest].
Proof.
  apply (fetchUserData_twice sameTwice freshWorld). reflexivity.
Defined.

(** ** More on the profile mutations *)

(** X9 — a mutation that fails loses nothing: when the request of
    [createOrUpdateProfile] or [deleteProfile] is rejected or answered
    outside 2xx, no profile refetch is made and [userData],
    [isAuthenticated] and the form are what they were. *)
Theorem failed_mutation_keeps_data server (profileData : PartialProfile)
    (w : World) :
  let save := createOrUpdateProfile server profileData in
  let drop := deleteProfile server in
  (request_fails (server (started w) (profilePostRequest profileData)) ->
   userData (store (after save w)) = userData (store w)
   /\ isAuthenticated (store (after save w)) = isAuthenticated (store w)
   /\ view (after save w) = view w
   /\ requests (newEvents w (after save w)) = [profilePostRequest profileData])
  /\ (request_fails (server (started w) profileDeleteRequest) ->
      userData (store (after drop w)) = userData (store w)
      /\ isAuthenticated (store (after drop w)) = isAuthenticated (store w)
      /\ view (after drop w) = view w
      /\ requests (newEvents w (after drop w)) = [profileDeleteRequest]).
Proof.
  simpl. unfold createOrUpdateProfile, deleteProfile, started.
  split; intros F; unfold_ops; simpl; flatten_trace;
    destruct F as [e He | r Hr Hok]; use_facts;
    repeat (split; [reflexivity|]);
    erewrite newEvents_app by (simpl; flatten_trace; reflexivity);
    reflexivity.
Qed.

Lemma failed_mutation_keeps_data_witness :
  userData (store (after (createOrUpdateProfile serverError emptyProfile)
                         signedInWorld)) = sampleUserData
  /\ userData (store (after (deleteProfile offline) signedInWorld))
     = sampleUserData.
Proof.
  split.
  - apply (proj1 (failed_mutation_keeps_data serverError emptyProfile
                    signedInWorld)).
    eapply request_refused; reflexivity.
  - apply (proj2 (failed_mutation_keeps_data offline emptyProfile
                    signedInWorld)).
    eapply request_rejected; reflexivity.
Defined.

(** ** More on [authenticate] *)

(** X10 — the requests of [authenticate], with a wallet: it first clears
    the error and asks for a fresh nonce, every time; it sends a verify
    request only for a message built from that nonce and carrying the
    signature the wallet gave for that very message; the profile request
    comes last if at all.  It makes no other request. *)
Theorem authenticate_request_discipline server createSiweMessage
    signMessageAsync (address : option jsstring) (w : World) :
  truthyAddress address = true ->
  let w' := after (authenticate server createSiweMessage signMessageAsync
                     address) w in
  (exists log,
     newEvents w w' =
       [ESetIsLoading true; ESetError None; EFetch nonceRequest] ++ log)
  /\ (requests (newEvents w w') = [nonceRequest]
      \/ exists message signature,
           signed server createSiweMessage signMessageAsync address w
             message signature
           /\ (requests (newEvents w w')
               = [nonceRequest; verifyRequest message signature]
               \/ requests (newEvents w w')
                  = [nonceRequest; verifyRequest message signature;
                     profileRequest])).
Proof.
  intros Ha. simpl.
  destruct (authenticate_fails_or_accepts server createSiweMessage
              signMessageAsync address w) as [F | (m & s & V)].
  - unfold authenticate. rewrite Ha. simpl.
    unfold getNonce. unfold_ops. simpl. flatten_trace.
    destruct F; open_handshake; open_facts; use_facts;
      erewrite newEvents_app by (simpl; flatten_trace; reflexivity);
      (split; [eexists; reflexivity|]); simpl.
    all: try (left; reflexivity).
    all: right; do 2 eexists; split;
      [ repeat first [reflexivity | eassumption | split | eexists]
      | try (left; reflexivity); try (right; reflexivity) ].
  - destruct (authenticate_success_run server createSiweMessage
                signMessageAsync address w m s Ha V)
      as (d & l & Hrun & Hreq & _).
    unfold after. rewrite Hrun. simpl.
    erewrite newEvents_app
      by (simpl; unfold verifiedTrace, signedTrace, started; flatten_trace;
          reflexivity).
    split; [eexists; reflexivity|].
    right. exists m, s. split; [exact (proj1 V)|]. right.
    simpl. rewrite requests_app, Hreq. reflexivity.
Qed.


Lemma authenticate_request_discipline_witness :
  requests (newEvents freshWorld
              (after (authenticate acceptsAll siwe0 signer0 alice) freshWorld))
  = [nonceRequest; verifyRequest message0 signature0; profileRequest]
  /\ exists log,
       newEvents freshWorld
         (after (authenticate offline siwe0 signer0 alice) freshWorld)
       = [ESetIsLoading true; ESetError None; EFetch nonceRequest] ++ log.
Proof.
  split; [reflexivity|].
  apply (proj1 (authenticate_request_discipline offline siwe0 signer0 alice
                  freshWorld eq_refl)).
Defined.

(** X11 — what the user reads after a failed sign-in.  A nonce answer
    outside 2xx gives ['Failed to get nonce']; a verify answer outside 2xx
    gives ['Authentication failed']; a verify body whose [success] is falsy
    or missing gives ['Authentication verification failed']; a rejected
    request and a refusing wallet give the message of the error they threw,
    or ['Authentication failed'] when what they threw is not an [Error]. *)
Theorem authenticate_error_messages server createSiweMessage signMessageAsync
    (address : option jsstring) (w : World) :
  truthyAddress address = true ->
  let shown :=
    error (store (after (authenticate server createSiweMessage
                           signMessageAsync address) w)) in
  (forall r, server (started w) nonceRequest = FetchResolves r ->
             ok r = false -> shown = Some (lit "Failed to get nonce"))
  /\ (forall e, server (started w) nonceRequest = FetchRejects e ->
                shown = Some (messageOr e "Authentication failed"))
  /\ (forall message e,
        message_is server createSiweMessage address w message ->
        signMessageAsync message = Abrupt e ->
        shown = Some (messageOr e "Authentication failed"))
  /\ (forall message signature r,
        signed server createSiweMessage signMessageAsync address w
          message signature ->
        verify_outcome server w message signature = FetchResolves r ->
        ok r = false -> shown = Some (lit "Authentication failed"))
  /\ (forall message signature r result success,
        signed server createSiweMessage signMessageAsync address w
          message signature ->
        verify_outcome server w message signature = FetchResolves r ->
        ok r = true -> json r = Normal result ->
        getProp result "success" = Normal success ->
        truthy success = false ->
        shown = Some (lit "Authentication verification failed")).
Proof.
  intros Ha. simpl.
  unfold authenticate. rewrite Ha. simpl.
  unfold getNonce. unfold_ops. simpl. flatten_trace.
  repeat match goal with |- _ /\ _ => split end;
    intros; open_handshake; open_facts; use_facts; reflexivity.
Qed.

Lemma authenticate_error_messages_witness :
  error (store (after (authenticate nonceOnly siwe0
                         (signerThrowing (ThrowOther (JStr (lit "no"))))
                         alice) freshWorld))
    = Some (lit "Authentication failed")
  /\ error (store (after (authenticate nonceOnly siwe0 refusingSigner alice)
                         freshWorld))
     = Some (lit "User rejected the request.")
  /\ error (store (after (authenticate verifyDenies siwe0 signer0 alice)
                         freshWorld))
     = Some (lit "Authentication verification failed").
Proof.
  split; [|split].
  - apply (proj1 (proj2 (proj2 (authenticate_error_messages nonceOnly siwe0
             (signerThrowing (ThrowOther (JStr (lit "no")))) alice freshWorld
             eq_refl))) message0 (ThrowOther (JStr (lit "no")))).
    + apply alice_message.
    + reflexivity.
  - apply (proj1 (proj2 (proj2 (authenticate_error_messages nonceOnly siwe0
             refusingSigner alice freshWorld eq_refl))) message0
             (Err "User rejected the request.")).
    + apply alice_message.
    + reflexivity.
  - eapply (proj2 (proj2 (proj2 (proj2 (authenticate_error_messages
              verifyDenies siwe0 signer0 alice freshWorld eq_refl))))).
    + apply alice_signed.
    + reflexivity.
    + reflexivity.
    + reflexivity.
    + reflexivity.
    + reflexivity.
Defined.

(** ** The earlier revision *)

(** X12 — the earlier [authenticate], with a wallet, never throws and
    always lowers the loading flag.  Either it ends authenticated with no
    error after exactly two requests (nonce, then verify), or it leaves
    [isAuthenticated] as it was with a message in the error field.  It
    never requests the profile. *)
Theorem legacy_authenticate_outcomes server createSiweMessage signMessageAsync
    (address : option jsstring) (w : World) :
  truthyAddress address = true ->
  let run := Legacy.authenticate server createSiweMessage signMessageAsync
               address in
  let w' := after run w in
  outcome run w = Normal tt
  /\ isLoading (store w') = false
  /\ ((isAuthenticated (store w') = JBool true
       /\ error (store w') = None
       /\ exists message signature,
            requests (newEvents w w')
            = [Legacy.nonceRequest; Legacy.verifyRequest message signature])
      \/ (isAuthenticated (store w') = isAuthenticated (store w)
          /\ (exists msg, error (store w') = Some msg)
          /\ (requests (newEvents w w') = [Legacy.nonceRequest]
              \/ exists message signature,
                   requests (newEvents w w')
                   = [Legacy.nonceRequest;
                      Legacy.verifyRequest message signature]))).
Proof.
  intros Ha. simpl.
  unfold Legacy.authenticate. rewrite Ha. simpl.
  unfold Legacy.getNonce. unfold_ops. simpl. flatten_trace.
  crunch.
  all: erewrite newEvents_app by (simpl; reflexivity); simpl.
  all: split; [reflexivity|]; split; [reflexivity|].
  all: first
         [ solve [left; split; [reflexivity|]; split; [reflexivity|]; eauto]
         | right; split; [reflexivity|]; split; [eauto|];
           first [left; reflexivity | right; eauto] ].
Qed.

Lemma legacy_authenticate_outcomes_witness :
  isAuthenticated
    (store (after (Legacy.authenticate acceptsAll siwe0 signer0 alice)
                  freshWorld)) = JBool true
  /\ outcome (Legacy.authenticate offline siwe0 signer0 alice) freshWorld
     = Normal tt.
Proof.
  split; [reflexivity|].
  apply (legacy_authenticate_outcomes offline siwe0 signer0 alice freshWorld).
  reflexivity.
Defined.

(** X13 — the earlier [logout] behaves like the later one: it never
    throws; once the request settles, with any status, [isAuthenticated] is
    false and the error is null; when the request is rejected
    [isAuthenticated] keeps its value and the message is recorded. *)
Theorem legacy_logout_outcomes server (w : World) :
  let w' := after (Legacy.logout server) w in
  outcome (Legacy.logout server) w = Normal tt
  /\ isLoading (store w') = false
  /\ (forall r, server (started w) Legacy.logoutRequest = FetchResolves r ->
        isAuthenticated (store w') = JBool false /\ error (store w') = None)
  /\ (forall e, server (started w) Legacy.logoutRequest = FetchRejects e ->
        isAuthenticated (store w') = isAuthenticated (store w)
        /\ error (store w') = Some (messageOr e "Logout failed")).
Proof.
  simpl. unfold Legacy.logout, started. unfold_ops. simpl. flatten_trace.
  destruct (server _ Legacy.logoutRequest) as [r|e]; simpl.
  - repeat (split; [reflexivity|]). split.
    + intros _ _. split; reflexivity.
    + intros e H. discriminate H.
  - repeat (split; [reflexivity|]). split.
    + intros r H. discriminate H.
    + intros e' H. injection H as <-. split; reflexivity.
Qed.

Lemma legacy_logout_outcomes_witness :
  isAuthenticated (store (after (Legacy.logout serverError) signedInWorld))
    = JBool false
  /\ isAuthenticated (store (after (Legacy.logout offline) signedInWorld))
     = JBool true.
Proof.
  split.
  - eapply (proj1 (proj2 (proj2 (legacy_logout_outcomes serverError
                                   signedInWorld)))).
    reflexivity.
  - eapply (proj2 (proj2 (proj2 (legacy_logout_outcomes offline
                                   signedInWorld)))).
    reflexivity.
Defined.

(** X14 — the earlier [checkAuthStatus] and wallet effect.  The status
    check never throws and makes exactly one request; a readable 2xx answer
    is stored as it comes, anything else stores false.  The effect sets
    [isAuthenticated] to false without any request when the wallet is
    disconnected, and only runs the status check when it is connected. *)
Theorem legacy_status_check server (isConnected : bool)
    (address : option jsstring) (w : World) :
  let check := Legacy.checkAuthStatus server in
  let effect := Legacy.walletEffect server isConnected address in
  outcome check w = Normal tt
  /\ requests (newEvents w (after check w)) = [Legacy.statusRequest]
  /\ (forall r parsed v,
        server (trace w) Legacy.statusRequest = FetchResolves r ->
        ok r = true -> json r = Normal parsed ->
        getProp parsed "authenticated" = Normal v ->
        isAuthenticated (store (after check w)) = v)
  /\ (request_fails (server (trace w) Legacy.statusRequest) ->
      isAuthenticated (store (after check w)) = JBool false)
  /\ (isConnected && truthyAddress address = false ->
      isAuthenticated (store (after effect w)) = JBool false
      /\ newEvents w (after effect w) = [ESetIsAuthenticated (JBool false)])
  /\ (isConnected && truthyAddress address = true ->
      after effect w = after check w).
Proof.
  simpl. split; [|split; [|split; [|split; [|split]]]].
  - unfold Legacy.checkAuthStatus. unfold_ops. simpl. crunch; reflexivity.
  - unfold Legacy.checkAuthStatus. unfold_ops. simpl. crunch.
    all: erewrite newEvents_app by (simpl; reflexivity); reflexivity.
  - intros r parsed v Hr Hok Hj Hg.
    unfold Legacy.checkAuthStatus. unfold_ops. simpl. use_facts. reflexivity.
  - intros F. unfold Legacy.checkAuthStatus. unfold_ops. simpl.
    destruct F as [e He | r Hr Hok]; use_facts; reflexivity.
  - intros H. unfold Legacy.walletEffect. rewrite H. unfold_ops. simpl.
    split; [reflexivity|]. apply newEvents_app. reflexivity.
  - intros H. unfold Legacy.walletEffect. rewrite H. reflexivity.
Qed.

Lemma legacy_status_check_witness :
  isAuthenticated
    (store (after (Legacy.checkAuthStatus serverError) signedInWorld))
    = JBool false
  /\ isAuthenticated
       (store (after (Legacy.walletEffect stillValid false alice)
                     signedInWorld)) = JBool false
  /\ after (Legacy.walletEffect stillValid true bob) signedInWorld
     = after (Legacy.checkAuthStatus stillValid) signedInWorld.
Proof.
  pose proof (legacy_status_check serverError false alice signedInWorld)
    as (_ & _ & _ & F & _).
  pose proof (legacy_status_check stillValid false alice signedInWorld)
    as (_ & _ & _ & _ & D & _).
  pose proof (legacy_status_check stillValid true bob signedInWorld)
    as (_ & _ & _ & _ & _ & C).
  split; [|split].
  - apply F. eapply request_refused; reflexivity.
  - apply (proj1 (D eq_refl)).
  - apply C. reflexivity.
Defined.

(** ** [formatAddress] *)

Lemma slice_head (s : jsstring) (k : nat) :
  slice s 0%Z (Some (Z.of_nat k)) = firstn k s.
Proof.
  unfold slice, clampIndex.
  assert (Hlen : (0 <= Z.of_nat (List.length s))%Z) by lia.
  destruct (Z.ltb_spec 0 0); [lia|].
  destruct (Z.ltb_spec (Z.of_nat k) 0); [lia|].
  replace (Z.to_nat (Z.min 0 (Z.of_nat (List.length s)))) with 0%nat by lia.
  simpl skipn.
  destruct (Nat.le_gt_cases k (List.length s)) as [Hk|Hk].
  - f_equal. lia.
  - rewrite (firstn_all2 (n := k)) by lia. apply firstn_all2. lia.
Qed.

Lemma slice_tail (s : jsstring) (k : nat) :
  (0 < k)%nat ->
  slice s (- Z.of_nat k)%Z None = skipn (List.length s - k) s.
Proof.
  intros Hk. unfold slice, clampIndex.
  destruct (Z.ltb_spec (- Z.of_nat k) 0); [|lia].
  replace (Z.to_nat (Z.max (Z.of_nat (List.length s) + - Z.of_nat k) 0))
    with (List.length s - k)%nat by lia.
  apply firstn_all2. rewrite length_skipn. lia.
Qed.

(** X15 — [formatAddress] shows the first six code units, three dots and
    the last four.  From ten code units on the result is thirteen long and
    the two shown parts are disjoint pieces of the address; an address of
    four code units or fewer is shown whole on both sides of the dots. *)
Theorem formatAddress_shape (addr : jsstring) :
  let n := List.length addr in
  formatAddress addr = firstn 6 addr ++ lit "..." ++ skipn (n - 4) addr
  /\ List.length (formatAddress addr) = (Nat.min 6 n + 3 + Nat.min 4 n)%nat
  /\ ((10 <= n)%nat ->
      List.length (formatAddress addr) = 13%nat
      /\ exists hidden,
           addr = firstn 6 addr ++ hidden ++ skipn (n - 4) addr
           /\ List.length hidden = (n - 10)%nat)
  /\ ((n <= 4)%nat -> formatAddress addr = addr ++ lit "..." ++ addr).
Proof.
  intros n.
  assert (E : formatAddress addr
              = firstn 6 addr ++ lit "..." ++ skipn (n - 4) addr).
  { unfold formatAddress.
    change 6%Z with (Z.of_nat 6). change (-4)%Z with (- Z.of_nat 4)%Z.
    rewrite slice_head, slice_tail by lia. reflexivity. }
  assert (L : List.length (formatAddress addr)
              = (Nat.min 6 n + 3 + Nat.min 4 n)%nat).
  { rewrite E. rewrite !length_app, length_firstn, length_skipn.
    change (List.length (lit "...")) with 3%nat. subst n. lia. }
  split; [exact E|]. split; [exact L|]. split.
  - intros Hn. split; [rewrite L; lia|].
    exists (firstn (n - 10) (skipn 6 addr)). split.
    + replace (skipn (n - 4) addr) with (skipn (n - 10) (skipn 6 addr)).
      * rewrite (firstn_skipn (n - 10) (skipn 6 addr)).
        symmetry. apply firstn_skipn.
      * rewrite skipn_skipn. f_equal. lia.
    + rewrite length_firstn, length_skipn. subst n. lia.
  - intros Hn. rewrite E.
    rewrite (firstn_all2 (n := 6)) by (subst n; lia).
    replace (n - 4)%nat with 0%nat by lia. reflexivity.
Qed.

Lemma formatAddress_shape_witness :
  List.length
    (formatAddress (lit "0x52908400098527886E0F7030069857D2E4169EE7")) = 13%nat
  /\ formatAddress (lit "0xA") = lit "0xA" ++ lit "..." ++ lit "0xA".
Proof.
  split.
  - apply (proj1 (proj2 (proj2 (formatAddress_shape
             (lit "0x52908400098527886E0F7030069857D2E4169EE7"))))).
    vm_compute. lia.
  - apply (proj2 (proj2 (proj2 (formatAddress_shape (lit "0xA"))))).
    vm_compute. lia.
Defined.

(** ** Trimming *)

Lemma forallb_rev {A} (f : A -> bool) (l : list A) :
  forallb f (rev l) = forallb f l.
Proof.
  induction l as [|x l IH]; simpl; [reflexivity|].
  rewrite forallb_app, IH. simpl. rewrite andb_true_r. apply andb_comm.
Qed.

Lemma trimStart_split (s : jsstring) :
  exists pre, s = pre ++ trimStart s
              /\ forallb isSpace pre = true
              /\ match trimStart s with
                 | [] => True
                 | c :: _ => isSpace c = false
                 end.
Proof.
  induction s as [|c s (pre & Hs & Hpre & Hhd)]; simpl.
  - exists []. auto.
  - destruct (isSpace c) eqn:Hc.
    + exists (c :: pre). simpl. rewrite Hc, Hpre. split; [congruence | auto].
    + exists []. simpl. auto.
Qed.

Lemma trimEnd_split (s : jsstring) :
  exists post, s = trimEnd s ++ post
               /\ forallb isSpace post = true
               /\ (trimEnd s = []
                   \/ exists front c, trimEnd s = front ++ [c]
                                      /\ isSpace c = false).
Proof.
  unfold trimEnd.
  destruct (trimStart_split (rev s)) as (pre & Hs & Hpre & Hhd).
  exists (rev pre). split; [|split].
  - rewrite <- rev_app_distr, <- Hs. symmetry. apply rev_involutive.
  - rewrite forallb_rev. exact Hpre.
  - destruct (trimStart (rev s)) as [|c t]; [left; reflexivity|].
    right. exists (rev t), c. simpl. auto.
Qed.

Lemma trimStart_spaces (s : jsstring) :
  forallb isSpace s = true -> trimStart s = [].
Proof.
  induction s as [|c s IH]; simpl; [reflexivity|].
  intros H. apply andb_true_iff in H. destruct H as [Hc Hs].
  rewrite Hc. auto.
Qed.

(** X16 — what the form transmits of a field: nothing when the field is
    made of white space only; otherwise the field without the white space
    around it — a string that begins and ends with a code unit that is not
    white space. *)
Theorem trimmedField_is_trimmed (s : jsstring) :
  (trimmedField s = None <-> forallb isSpace s = true)
  /\ (forall t, trimmedField s = Some t ->
        (exists c rest, t = c :: rest /\ isSpace c = false)
        /\ (exists front c, t = front ++ [c] /\ isSpace c = false)
        /\ exists pre post, s = pre ++ t ++ post
                            /\ forallb isSpace pre = true
                            /\ forallb isSpace post = true).
Proof.
  unfold trimmedField, trim.
  destruct (trimStart_split s) as (pre & Hs & Hpre & Hhd).
  destruct (trimEnd_split (trimStart s)) as (post & Ht & Hpost & Hlast).
  split.
  - split.
    + destruct (trimEnd (trimStart s)) as [|c t] eqn:E; simpl;
        [|discriminate].
      intros _. rewrite Hs, Ht. simpl. rewrite forallb_app, Hpre, Hpost.
      reflexivity.
    + intros H. rewrite (trimStart_spaces s H). reflexivity.
  - intros t Hsome.
    destruct (trimEnd (trimStart s)) as [|c rest] eqn:E; simpl in Hsome;
      [discriminate|].
    injection Hsome as <-.
    split; [|split].
    + exists c, rest. split; [reflexivity|].
      rewrite Ht in Hhd. simpl in Hhd. exact Hhd.
    + destruct Hlast as [Hnil | Hlast]; [discriminate | exact Hlast].
    + exists pre, post. rewrite <- Ht. auto.
Qed.

Lemma trimmedField_is_trimmed_witness :
  exists pre post,
    lit "  Alice " = pre ++ lit "Alice" ++ post
    /\ forallb isSpace pre = true /\ forallb isSpace post = true.
Proof.
  apply (proj2 (trimmedField_is_trimmed (lit "  Alice ")) (lit "Alice")).
  reflexivity.
Defined.

(** ** The avatar pattern *)

Lemma matches_eps s : matches Eps s <-> s = [].
Proof.
  split; [intros H; inversion H; reflexivity | intros ->; constructor].
Qed.

Lemma matches_word_i (word : list ascii) :
  forall s, matches (word_i word) s <-> sameIgnoringCase word s = true.
Proof.
  induction word as [|a word IH]; intros s; simpl.
  - rewrite matches_eps. destruct s; split; congruence.
  - split.
    + intros H. inversion H as [| |? ? s1 s2 H1 H2| | | |]; subst.
      inversion H1; subst. simpl.
      apply IH in H2. rewrite H2.
      match goal with Hp : _ = true |- _ => rewrite Hp end. reflexivity.
    + destruct s as [|c s]; [discriminate|]. intros H.
      apply andb_true_iff in H. destruct H as [Hc Hs].
      apply (MCat _ _ [c] s); [constructor; exact Hc | apply IH; exact Hs].
Qed.

Lemma sameIgnoringCase_app (w1 w2 : list ascii) :
  forall s, sameIgnoringCase (w1 ++ w2) s = true <->
            exists s1 s2, s = s1 ++ s2
                          /\ sameIgnoringCase w1 s1 = true
                          /\ sameIgnoringCase w2 s2 = true.
Proof.
  induction w1 as [|a w1 IH]; intros s; simpl.
  - split.
    + intros H. exists [], s. auto.
    + intros (s1 & s2 & -> & H1 & H2). destruct s1; [exact H2 | discriminate].
  - split.
    + destruct s as [|c s]; [discriminate|]. intros H.
      apply andb_true_iff in H. destruct H as [Hc Hs].
      apply IH in Hs. destruct Hs as (s1 & s2 & -> & H1 & H2).
      exists (c :: s1), s2. simpl. rewrite Hc, H1. auto.
    + intros (s1 & s2 & -> & H1 & H2).
      destruct s1 as [|c s1]; [discriminate|]. simpl.
      apply andb_true_iff in H1. destruct H1 as [Hc H1].
      rewrite Hc. simpl. apply IH. exists s1, s2. auto.
Qed.

Lemma sameIgnoringCase_dot (s : jsstring) :
  sameIgnoringCase ["."%char] s = true <-> s = [code "."].
Proof.
  split.
  - destruct s as [|c [|d s]]; simpl; try discriminate.
    + rewrite andb_true_r. unfold asciiUpper, isAsciiLower, code. simpl.
      destruct (N.ltb_spec c 128) as [Hlt|Hge]; [|discriminate].
      destruct (N.leb_spec 97 c) as [Ha|Ha];
        destruct (N.leb_spec c 122) as [Hz|Hz]; simpl;
        intros E; apply N.eqb_eq in E; f_equal; lia.
    + rewrite andb_false_r. discriminate.
  - intros ->. reflexivity.
Qed.

Lemma matches_chr_i a s :
  matches (chr_i a) s <-> sameIgnoringCase [a] s = true.
Proof.
  unfold chr_i. split.
  - intros H. inversion H; subst. simpl.
    match goal with Hp : _ = true |- _ => rewrite Hp end. reflexivity.
  - destruct s as [|c [|d s]]; simpl; try discriminate.
    + rewrite andb_true_r. intros H. constructor. exact H.
    + rewrite andb_false_r. discriminate.
Qed.

Lemma matches_str_i (word : string) (s : jsstring) :
  matches (str_i word) s <-> isWord word s.
Proof. apply matches_word_i. Qed.

(** X18 — the avatar pattern accepts exactly the strings made of
    [http://] or [https://], at least one code unit that is not a line
    terminator, a dot and one of the six image extensions, letters being
    read without regard to case. *)
Theorem avatarPattern_shape (s : jsstring) :
  test avatarPattern s = true <->
  exists scheme rest ext,
    s = scheme ++ rest ++ code "." :: ext
    /\ (isWord "http://" scheme \/ isWord "https://" scheme)
    /\ rest <> []
    /\ forallb (fun c => negb (isLineTerminator c)) rest = true
    /\ isImageExtension ext.
Proof.
  rewrite test_matches. unfold avatarPattern, dot, Opt. split.
  - intros H.
    inversion H as [| |? ? h s1 Hh H1| | | |]; subst.
    inversion H1 as [| |? ? o s2 Ho H2| | | |]; subst.
    inversion H2 as [| |? ? c s3 Hc H3| | | |]; subst.
    inversion H3 as [| |? ? m s4 Hm H4| | | |]; subst.
    inversion H4 as [| |? ? d e Hd He| | | |]; subst.
    apply matches_str_i in Hh, Hc. unfold isWord in Hh, Hc.
    apply matches_plus_class in Hm. destruct Hm as [Hne Hm].
    apply matches_chr_i, sameIgnoringCase_dot in Hd. subst d.
    exists (h ++ o ++ c), m, e.
    split; [rewrite <- !app_assoc; reflexivity|].
    split; [|split; [exact Hne|split; [exact Hm|]]].
    + inversion Ho as [| | |? ? ? Hs|? ? ? Hs| |]; subst.
      * right. apply matches_chr_i in Hs. unfold isWord.
        change (list_ascii_of_string "https://")
          with (list_ascii_of_string "http"
                ++ ["s"%char] ++ list_ascii_of_string "://").
        apply sameIgnoringCase_app. exists h, (o ++ c).
        split; [reflexivity|]. split; [exact Hh|].
        apply sameIgnoringCase_app. exists o, c. auto.
      * left. apply matches_eps in Hs. subst o. unfold isWord.
        change (list_ascii_of_string "http://")
          with (list_ascii_of_string "http" ++ list_ascii_of_string "://").
        apply sameIgnoringCase_app. exists h, c. auto.
    + unfold isImageExtension, isWord.
      repeat match goal with
             | H : matches (Alt _ _) _ |- _ => inversion H; subst; clear H
             end;
        match goal with
        | H : matches (str_i _) _ |- _ => apply matches_str_i in H
        end; unfold isWord in *; auto 10.
  - intros (scheme & rest & ext & -> & Hscheme & Hne & Hrest & Hext).
    assert (Htail : matches
              (Cat (Plus (Class (fun c => negb (isLineTerminator c))))
                 (Cat (chr_i ".")
                    (Alt (str_i "jpg")
                       (Alt (str_i "jpeg")
                          (Alt (str_i "png")
                             (Alt (str_i "gif")
                                (Alt (str_i "webp") (str_i "svg"))))))))
              (rest ++ [code "."] ++ ext)).
    { apply MCat; [apply matches_plus_class; auto|].
      apply MCat; [apply matches_chr_i; reflexivity|].
      unfold isImageExtension in Hext.
      destruct Hext as [E|[E|[E|[E|[E|E]]]]]; apply matches_str_i in E.
      - apply MAltL; exact E.
      - apply MAltR, MAltL; exact E.
      - apply MAltR, MAltR, MAltL; exact E.
      - apply MAltR, MAltR, MAltR, MAltL; exact E.
      - apply MAltR, MAltR, MAltR, MAltR, MAltL; exact E.
      - apply MAltR, MAltR, MAltR, MAltR, MAltR; exact E. }
    unfold isWord in Hscheme. destruct Hscheme as [Hs | Hs].
    + change (list_ascii_of_string "http://")
        with (list_ascii_of_string "http" ++ list_ascii_of_string "://") in Hs.
      apply sameIgnoringCase_app in Hs.
      destruct Hs as (h & c & -> & Hh & Hc).
      rewrite <- app_assoc.
      apply MCat; [apply matches_str_i; exact Hh|].
      apply (MCat _ _ []); [apply MAltR; constructor|].
      apply MCat; [apply matches_str_i; exact Hc | exact Htail].
    + change (list_ascii_of_string "https://")
        with (list_ascii_of_string "http"
              ++ ["s"%char] ++ list_ascii_of_string "://") in Hs.
      apply sameIgnoringCase_app in Hs.
      destruct Hs as (h & oc & -> & Hh & Hoc).
      apply sameIgnoringCase_app in Hoc.
      destruct Hoc as (o & c & -> & Ho & Hc).
      rewrite <- !app_assoc.
      apply MCat; [apply matches_str_i; exact Hh|].
      apply MCat; [apply MAltL, matches_chr_i; exact Ho|].
      apply MCat; [apply matches_str_i; exact Hc | exact Htail].
Qed.

Lemma handleFormSubmit_valid_run server (w : World) :
  passesValidation (profileForm (view w)) ->
  handleFormSubmit server w =
    tryCatch
      (createOrUpdateProfile server (submittedProfile (profileForm (view w))) ;;
       setShowProfileForm false ;;
       setProfileForm emptyForm)
      (fun err => consoleError "Profile operation failed:" (Some err))
      (preventDefaultDone w).
Proof.
  intros (Hnb & He & Ha).
  unfold handleFormSubmit, bind at 1, emit. simpl. rewrite Hnb.
  replace (nonEmpty (trim (email (profileForm (view w))))
           && negb (test emailPattern (trim (email (profileForm (view w))))))
    with false.
  2:{ unfold blank in He. destruct He as [He | He].
      - apply negb_true_iff in He. rewrite He. reflexivity.
      - rewrite He. rewrite andb_false_r. reflexivity. }
  replace (nonEmpty (trim (avatar (profileForm (view w))))
           && negb (test avatarPattern (trim (avatar (profileForm (view w))))))
    with false.
  2:{ unfold blank in Ha. destruct Ha as [Ha | Ha].
      - apply negb_true_iff in Ha. rewrite Ha. reflexivity.
      - rewrite Ha. rewrite andb_false_r. reflexivity. }
  reflexivity.
Qed.

(** X19 — a form that passes the three checks and whose POST comes back
    2xx: the payload is the trimmed non-empty fields, the profile is
    refetched, and the form is closed and emptied. *)
Theorem handleFormSubmit_saves_and_closes server (w : World) r :
  let f := profileForm (view w) in
  let w' := after (handleFormSubmit server) w in
  passesValidation f ->
  server (submitStarted w) (profilePostRequest (submittedProfile f))
    = FetchResolves r ->
  ok r = true ->
  outcome (handleFormSubmit server) w = Normal tt
  /\ requests (newEvents w w')
     = [profilePostRequest (submittedProfile f); profileRequest]
  /\ view w' = mkView false emptyForm
  /\ error (store w') = None
  /\ isLoading (store w') = false.
Proof.
  intros f w' Hv Hr Hok. subst f w'. unfold outcome, after, submitStarted in *.
  rewrite (handleFormSubmit_valid_run server w Hv).
  unfold createOrUpdateProfile, preventDefaultDone. unfold_ops. simpl.
  flatten_trace. use_facts.
  match goal with
  | |- context [fetchUserData server ?W] =>
      destruct (fetchUserData_effect server W) as (d & l & Hrun & Hreq & _)
  end.
  rewrite Hrun. simpl.
  split; [reflexivity|]. split; [|repeat split; reflexivity].
  erewrite newEvents_app by (simpl; flatten_trace; reflexivity).
  simpl. rewrite requests_app, Hreq. reflexivity.
Qed.

(** X20 — a form that passes the checks and whose POST is rejected or
    answered outside 2xx: the handler catches the error and logs it, the
    message is in the error field, and the form stays open with what the
    user typed. *)
Theorem handleFormSubmit_failure_keeps_form server (w : World) :
  let f := profileForm (view w) in
  let w' := after (handleFormSubmit server) w in
  passesValidation f ->
  request_fails
    (server (submitStarted w) (profilePostRequest (submittedProfile f))) ->
  outcome (handleFormSubmit server) w = Normal tt
  /\ view w' = view w
  /\ userData (store w') = userData (store w)
  /\ isLoading (store w') = false
  /\ exists err,
       error (store w') = Some (messageOr err "Profile update failed")
       /\ newEvents w w' =
            [EPreventDefault; ESetIsLoading true; ESetError None;
             EFetch (profilePostRequest (submittedProfile f));
             ESetError (Some (messageOr err "Profile update failed"));
             ESetIsLoading false;
             EConsoleError (lit "Profile operation failed:") (Some err)].
Proof.
  intros f w' Hv F. subst f w'. unfold outcome, after, submitStarted in *.
  rewrite (handleFormSubmit_valid_run server w Hv).
  unfold createOrUpdateProfile, preventDefaultDone. unfold_ops. simpl.
  flatten_trace.
  destruct F as [e He | r Hr Hok]; use_facts.
  - repeat (split; [reflexivity|]). exists e. split; [reflexivity|].
    apply newEvents_app. simpl. flatten_trace. reflexivity.
  - repeat (split; [reflexivity|]). exists (Err "Failed to update profile").
    split; [reflexivity|].
    apply newEvents_app. simpl. flatten_trace. reflexivity.
Qed.

Lemma handleFormSubmit_invalid_run server (w : World) :
  let f := profileForm (view w) in
  (blank (name f) && blank (email f) && blank (avatar f) = true ->
   handleFormSubmit server w = alerted w "Please fill in at least one field")
  /\ (blank (email f) = false ->
      test emailPattern (trim (email f)) = false ->
      handleFormSubmit server w = alerted w "Please enter a valid email address")
  /\ ((blank (email f) = true \/ test emailPattern (trim (email f)) = true) ->
      blank (avatar f) = false ->
      test avatarPattern (trim (avatar f)) = false ->
      handleFormSubmit server w =
        alerted w "Please enter a valid image URL (jpg, jpeg, png, gif, webp, svg)").
Proof.
  simpl. unfold alerted. split; [|split].
  - intros Hb. unfold handleFormSubmit. unfold_ops. simpl. rewrite Hb. simpl.
    flatten_trace. reflexivity.
  - intros Hb Ht. unfold handleFormSubmit. unfold_ops. simpl.
    rewrite Hb, andb_false_r. simpl.
    unfold blank in Hb. apply negb_false_iff in Hb. rewrite Hb, Ht. simpl.
    flatten_trace. reflexivity.
  - intros He Hb Ht. unfold handleFormSubmit. unfold_ops. simpl.
    rewrite Hb, !andb_false_r. simpl.
    replace (nonEmpty (trim (email (profileForm (view w))))
             && negb (test emailPattern (trim (email (profileForm (view w))))))
      with false.
    2:{ unfold blank in He. destruct He as [He | He].
        - apply negb_true_iff in He. rewrite He. reflexivity.
        - rewrite He. rewrite andb_false_r. reflexivity. }
    unfold blank in Hb. apply negb_false_iff in Hb. rewrite Hb, Ht. simpl.
    flatten_trace. reflexivity.
Qed.

(** X21 — the third check: when the email is absent or valid and the
    trimmed avatar is not empty and does not match the avatar pattern, the
    handler shows the image-URL alert and makes no request. *)
Theorem handleFormSubmit_rejects_bad_avatar server (w : World) :
  let f := profileForm (view w) in
  let w' := after (handleFormSubmit server) w in
  blank (email f) = true \/ test emailPattern (trim (email f)) = true ->
  blank (avatar f) = false ->
  test avatarPattern (trim (avatar f)) = false ->
  outcome (handleFormSubmit server) w = Normal tt
  /\ newEvents w w' =
       [EPreventDefault;
        EAlert (lit "Please enter a valid image URL (jpg, jpeg, png, gif, webp, svg)")]
  /\ requests (trace w') = requests (trace w)
  /\ store w' = store w /\ view w' = view w.
Proof.
  intros f w' He Hb Ht. subst f w'.
  unfold handleFormSubmit. unfold_ops. simpl.
  rewrite Hb, !andb_false_r. simpl.
  replace (nonEmpty (trim (email (profileForm (view w))))
           && negb (test emailPattern (trim (email (profileForm (view w))))))
    with false.
  2:{ unfold blank in He. destruct He as [He | He].
      - apply negb_true_iff in He. rewrite He. reflexivity.
      - rewrite He. rewrite andb_false_r. reflexivity. }
  unfold blank in Hb. apply negb_false_iff in Hb. rewrite Hb, Ht. simpl.
  split; [reflexivity|]. split.
  - apply newEvents_app. flatten_trace. reflexivity.
  - split; [|split; reflexivity].
    rewrite <- app_assoc, requests_app. simpl. apply app_nil_r.
Qed.

Lemma validation_cases (f : ProfileFormData) :
  blank (name f) && blank (email f) && blank (avatar f) = true
  \/ (blank (email f) = false /\ test emailPattern (trim (email f)) = false)
  \/ ((blank (email f) = true \/ test emailPattern (trim (email f)) = true)
      /\ blank (avatar f) = false
      /\ test avatarPattern (trim (avatar f)) = false)
  \/ passesValidation f.
Proof.
  unfold passesValidation.
  destruct (blank (name f) && blank (email f) && blank (avatar f)) eqn:Hb;
    [left; reflexivity|].
  destruct (blank (email f)) eqn:He;
    destruct (test emailPattern (trim (email f))) eqn:Hte;
    destruct (blank (avatar f)) eqn:Ha;
    destruct (test avatarPattern (trim (avatar f))) eqn:Hta;
    auto 10.
Qed.

(** On the form as [ProfileFormData] types it, a submit returns normally
    after at most the POST and one refetch. *)
Lemma handleFormSubmit_typed_returns server (w : World) :
  let post := profilePostRequest (submittedProfile (profileForm (view w))) in
  let w' := after (handleFormSubmit server) w in
  outcome (handleFormSubmit server) w = Normal tt
  /\ (requests (newEvents w w') = []
      \/ requests (newEvents w w') = [post]
      \/ requests (newEvents w w') = [post; profileRequest]).
Proof.
  simpl.
  destruct (validation_cases (profileForm (view w))) as [H|[H|[H|H]]].
  - destruct (handleFormSubmit_invalid_run server w) as (R & _).
    unfold outcome, after. rewrite (R H). unfold alerted. simpl. split; [reflexivity|].
    left. erewrite newEvents_app by reflexivity. reflexivity.
  - destruct (handleFormSubmit_invalid_run server w) as (_ & R & _).
    destruct H as [H1 H2].
    unfold outcome, after. rewrite (R H1 H2). unfold alerted. simpl. split; [reflexivity|].
    left. erewrite newEvents_app by reflexivity. reflexivity.
  - destruct (handleFormSubmit_invalid_run server w) as (_ & _ & R).
    destruct H as (H1 & H2 & H3).
    unfold outcome, after. rewrite (R H1 H2 H3). unfold alerted. simpl. split; [reflexivity|].
    left. erewrite newEvents_app by reflexivity. reflexivity.
  - unfold outcome, after.
    rewrite (handleFormSubmit_valid_run server w H).
    unfold createOrUpdateProfile, preventDefaultDone. unfold_ops. simpl.
    flatten_trace.
    destruct (server _ (profilePostRequest _)) as [r|e]; simpl.
    + destruct (ok r); simpl.
      * match goal with
        | |- context [fetchUserData server ?W] =>
            destruct (fetchUserData_effect server W)
              as (d & l & Hrun & Hreq & _)
        end.
        rewrite Hrun. simpl. split; [reflexivity|]. right. right.
        erewrite newEvents_app by (simpl; flatten_trace; reflexivity).
        simpl. rewrite requests_app, Hreq. reflexivity.
      * split; [reflexivity|]. right. left.
        erewrite newEvents_app by (simpl; flatten_trace; reflexivity).
        reflexivity.
    + split; [reflexivity|]. right. left.
      erewrite newEvents_app by (simpl; flatten_trace; reflexivity).
      reflexivity.
Qed.

Lemma handleFormSubmit_saves_and_closes_witness :
  let w' := after (handleFormSubmit savesProfile) (formWorld goodForm) in
  requests (newEvents (formWorld goodForm) w')
  = [profilePostRequest
       (mkPartial (Some (lit "Alice")) (Some (lit "alice@example.org")) None
                  None None);
     profileRequest]
  /\ view w' = mkView false emptyForm.
Proof.
  assert (V : passesValidation (profileForm (view (formWorld goodForm)))).
  { split; [reflexivity|]. split; [right; reflexivity | left; reflexivity]. }
  destruct (handleFormSubmit_saves_and_closes savesProfile (formWorld goodForm)
              (mkResponse 200 (Normal (lit "")) notJson) V eq_refl eq_refl)
    as (_ & Hreq & Hview & _).
  split; [exact Hreq | exact Hview].
Defined.

Lemma handleFormSubmit_failure_keeps_form_witness :
  let w' := after (handleFormSubmit serverError) (formWorld goodForm) in
  view w' = mkView true goodForm
  /\ outcome (handleFormSubmit serverError) (formWorld goodForm) = Normal tt.
Proof.
  assert (V : passesValidation (profileForm (view (formWorld goodForm)))).
  { split; [reflexivity|]. split; [right; reflexivity | left; reflexivity]. }
  assert (F : request_fails
                (serverError (submitStarted (formWorld goodForm))
                   (profilePostRequest
                      (submittedProfile
                         (profileForm (view (formWorld goodForm))))))).
  { eapply request_refused; reflexivity. }
  destruct (handleFormSubmit_failure_keeps_form serverError
              (formWorld goodForm) V F) as (Ho & Hview & _).
  split; [exact Hview | exact Ho].
Defined.

Lemma handleFormSubmit_rejects_bad_avatar_witness :
  requests (trace (after (handleFormSubmit savesProfile)
                         (formWorld badAvatarForm))) = [].
Proof.
  apply (handleFormSubmit_rejects_bad_avatar savesProfile
           (formWorld badAvatarForm)).
  - left. reflexivity.
  - reflexivity.
  - reflexivity.
Defined.

Lemma emailPattern_shape_witness :
  exists a b c,
    lit "alice@example.org" = a ++ code "@" :: b ++ code "." :: c
    /\ emailPart a /\ emailPart b /\ emailPart c.
Proof.
  apply (proj1 (emailPattern_shape (lit "alice@example.org"))). reflexivity.
Defined.

Lemma avatarPattern_shape_witness :
  exists scheme rest ext,
    lit "HTTPS://example.org/me.PNG" = scheme ++ rest ++ code "." :: ext
    /\ (isWord "http://" scheme \/ isWord "https://" scheme)
    /\ rest <> []
    /\ forallb (fun c => negb (isLineTerminator c)) rest = true
    /\ isImageExtension ext.
Proof.
  apply (proj1 (avatarPattern_shape (lit "HTTPS://example.org/me.PNG"))).
  reflexivity.
Defined.

(** X23 — a create form that is submitted untouched goes nowhere:
    [handleCreateProfile] opens the form with three empty fields, and
    submitting it as it is only shows the fill-in alert — no request, and
    the form stays open. *)
Theorem untouched_create_form_is_not_sent server (w : World) :
  let opened := after handleCreateProfile w in
  let submitted := after (handleFormSubmit server) opened in
  view opened = mkView true emptyForm
  /\ store opened = store w
  /\ outcome (handleFormSubmit server) opened = Normal tt
  /\ newEvents opened submitted =
       [EPreventDefault; EAlert (lit "Please fill in at least one field")]
  /\ view submitted = mkView true emptyForm
  /\ store submitted = store w.
Proof.
  simpl.
  assert (O : after handleCreateProfile w
              = mkWorld (store w) (mkView true emptyForm)
                  (trace w ++ [ESetProfileForm emptyForm;
                               ESetShowProfileForm true])).
  { unfold handleCreateProfile. unfold_ops. simpl. flatten_trace.
    reflexivity. }
  rewrite O.
  destruct (handleFormSubmit_invalid_run server
              (mkWorld (store w) (mkView true emptyForm)
                 (trace w ++ [ESetProfileForm emptyForm;
                              ESetShowProfileForm true]))) as (R & _).
  unfold outcome, after. rewrite (R eq_refl). unfold alerted. simpl.
  repeat (split; [reflexivity|]). split; [|split; reflexivity].
  apply newEvents_app. simpl. flatten_trace. reflexivity.
Qed.

(** X24 — the happy path of [authenticate]: when the verification is
    accepted and the profile endpoint then answers 2xx with a readable
    body, the call ends authenticated, with that body as the user data, the
    loading flag down and no error — whatever error was shown before. *)
Theorem authenticate_success_loads_user_data server createSiweMessage
    signMessageAsync (address : option jsstring) (w : World)
    message signature r data :
  truthyAddress address = true ->
  verify_accepts server createSiweMessage signMessageAsync address w
    message signature ->
  server (verifiedTrace w message signature) profileRequest = FetchResolves r ->
  ok r = true ->
  json r = Normal data ->
  store (after (authenticate server createSiweMessage signMessageAsync
                  address) w)
  = mkStore (JBool true) false None data.
Proof.
  intros Ha V Hr Hok Hj.
  unfold authenticate. rewrite Ha. simpl.
  unfold getNonce. unfold_ops. simpl. flatten_trace.
  open_handshake. open_facts. use_facts.
  match goal with
  | |- context [fetchUserData server ?W] =>
      destruct (fetchUserData_effect server W)
        as (d & l & Hrun & _ & _ & Hdata)
  end.
  rewrite Hrun. simpl in *.
  destruct (Hdata r data Hr Hok Hj) as [-> _]. reflexivity.
Qed.

Lemma authenticate_success_loads_user_data_witness :
  store (after (authenticate acceptsAll siwe0 signer0 alice)
               (mkWorld (mkStore (JBool false) false
                           (Some (lit "Authentication failed")) JNull)
                        noView []))
  = mkStore (JBool true) false None sampleUserData.
Proof.
  eapply (authenticate_success_loads_user_data acceptsAll siwe0 signer0 alice
            _ message0 signature0).
  - reflexivity.
  - split.
    + split; [|reflexivity]. exists (lit "abc123").
      split; [|reflexivity]. eexists. repeat split; reflexivity.
    + eexists; eexists; eexists. repeat split; reflexivity.
  - reflexivity.
  - reflexivity.
  - reflexivity.
Defined.

(** ** The form at run time *)

(** On a form of strings the run-time handler is [handleFormSubmit]. *)
Lemma handleFormSubmitOn_strings server (w : World) :
  handleFormSubmitOn server (stringForm (profileForm (view w))) w
  = handleFormSubmit server w.
Proof.
  unfold handleFormSubmitOn, handleFormSubmit, failsPattern, nonEmptyField,
    trimmed, blank, trimmedField, stringForm.
  unfold bind, settle, ret, emit, alert. simpl.
  destruct (nonEmpty (trim (name (profileForm (view w))))) eqn:Hn;
    destruct (nonEmpty (trim (email (profileForm (view w))))) eqn:He;
    destruct (nonEmpty (trim (avatar (profileForm (view w))))) eqn:Ha;
    simpl;
    try reflexivity;
    destruct (test emailPattern (trim (email (profileForm (view w)))));
    simpl; try reflexivity;
    destruct (test avatarPattern (trim (avatar (profileForm (view w)))));
    simpl; reflexivity.
Qed.

(** X22 — when the three fields of the form are strings, a submit never
    throws, whatever the strings and whatever the server does, and it makes
    no request, or the POST of the trimmed fields alone, or that POST
    followed by one profile refetch; nothing else.  (A field that is not a
    string is another matter: see X25.) *)
Theorem handleFormSubmit_never_throws_on_strings server (w : World) :
  let f := profileForm (view w) in
  let run := handleFormSubmitOn server (stringForm f) in
  let post := profilePostRequest (submittedProfile f) in
  run w = handleFormSubmit server w
  /\ outcome run w = Normal tt
  /\ (requests (newEvents w (after run w)) = []
      \/ requests (newEvents w (after run w)) = [post]
      \/ requests (newEvents w (after run w)) = [post; profileRequest]).
Proof.
  simpl. split; [apply handleFormSubmitOn_strings|].
  unfold outcome, after. rewrite handleFormSubmitOn_strings.
  apply (handleFormSubmit_typed_returns server w).
Qed.



